(** * go-signalads: the request/response pipeline and its error taxonomy

    A shallow embedding of the client library's core:
    - the error model: the typed [APIError], its rendering, the classifier
      predicates and [WrapError];
    - the generic pipeline: [doRequest], [parseResponse],
      [getErrorCodeFromStatusCode] and the four verbs;
    - the message service: the single and the bulk send.

    Go's [int] is carried by [Z], Go strings and byte slices by [string]
    (a Rocq string is a sequence of bytes, as a Go string is).  The
    collaborators from the Go standard library ([encoding/json], [net/url],
    [net/http]) are interfaces of the development: type classes for the
    reflection-driven JSON codec, record fields for the transport. *)

From Stdlib Require Import ZArith String Ascii List Bool DecimalString Lia.
From Stdlib Require Import Uint63 Floats.PrimFloat.
Import ListNotations.

Set Warnings "-register-all".

Local Open Scope string_scope.
Local Open Scope Z_scope.

(** ** Go values used by the library *)

Module Go.

(** A call either returns or panics (nil dereference, method call on a
    nil interface). *)
Inductive outcome (A : Type) : Type :=
| Return (a : A)
| Panic.
Arguments Return {A} a.
Arguments Panic {A}.

(** [fmt]'s verb [%d] on an [int]. *)
Definition fmt_d (n : Z) : string := NilZero.string_of_int (Z.to_int n).

(** [s != ""]. *)
Definition nonempty (s : string) : bool := negb (s =? "")%string.

Definition float64 := PrimFloat.float.

End Go.
Export Go.

(** ** JSON documents

    [map[string]interface{}] fields hold decoded JSON; [value] is what
    [encoding/json] stores behind an [interface{}].  A number is carried by
    its literal (Go keeps the [float64] the literal denotes). *)

Module Json.

Inductive value : Type :=
| Null
| Boolean (b : bool)
| Number (literal : string)
| Str (s : string)
| Array (items : list value)
| Object (members : list (string * value)).

(** A Go map from string to decoded JSON; [None] is the nil map. *)
Definition object_map := option (list (string * value)).

End Json.

(** ** The error model *)

Record APIError : Type := mkAPIError {
  Code : string;
  Message : string;
  StatusCode : Z;
  ErrorMsg : string;
  Details : Json.object_map
}.

(** The zero value, [var apiErr APIError]. *)
Definition APIError_zero : APIError := mkAPIError "" "" 0 "" None.

(** [func (e *APIError) Error() string], on a non-nil receiver. *)
Definition APIError_Error (e : APIError) : string :=
  if nonempty (Message e) then Message e
  else if nonempty (ErrorMsg e) then ErrorMsg e
  else if nonempty (Code e) then
    "API error [" ++ Code e ++ "]: status " ++ fmt_d (StatusCode e)
  else "API error: status " ++ fmt_d (StatusCode e).

Definition ErrCodeInvalidCredentials : string := "INVALID_CREDENTIALS".
Definition ErrCodeInvalidPhoneNumber : string := "INVALID_PHONE_NUMBER".
Definition ErrCodeInvalidMessage : string := "INVALID_MESSAGE".
Definition ErrCodeInsufficientBalance : string := "INSUFFICIENT_BALANCE".
Definition ErrCodeRateLimitExceeded : string := "RATE_LIMIT_EXCEEDED".
Definition ErrCodeNotFound : string := "NOT_FOUND".
Definition ErrCodeUnauthorized : string := "UNAUTHORIZED".
Definition ErrCodeForbidden : string := "FORBIDDEN".
Definition ErrCodeBadRequest : string := "BAD_REQUEST".
Definition ErrCodeInternalServerError : string := "INTERNAL_SERVER_ERROR".
Definition ErrCodeServiceUnavailable : string := "SERVICE_UNAVAILABLE".
Definition ErrCodeInvalidTemplate : string := "INVALID_TEMPLATE".
Definition ErrCodeTemplateNotApproved : string := "TEMPLATE_NOT_APPROVED".
Definition ErrCodeInvalidDocument : string := "INVALID_DOCUMENT".
Definition ErrCodeInvalidVoiceFormat : string := "INVALID_VOICE_FORMAT".

(** The status constants of [net/http] the library names. *)
Definition StatusBadRequest : Z := 400.
Definition StatusUnauthorized : Z := 401.
Definition StatusPaymentRequired : Z := 402.
Definition StatusForbidden : Z := 403.
Definition StatusNotFound : Z := 404.
Definition StatusTooManyRequests : Z := 429.
Definition StatusInternalServerError : Z := 500.
Definition StatusServiceUnavailable : Z := 503.

(** A value of Go's interface type [error], by dynamic type:
    - [error_nil]: the nil interface;
    - [errorString s]: an error that only carries its text, what
      [errors.New] and [fmt.Errorf] without [%w] build (errors of the
      standard library are carried the same way, by their text; an error
      of another type whose [Error()] does not return, such as a nil
      pointer of that type, has no text and is not among these values);
    - [wrapError msg err]: what [fmt.Errorf] builds for one [%w] operand;
    - [APIErrorPtr p]: a [*APIError]; [p = None] is the nil pointer stored
      in a non-nil interface. *)
Inductive error : Type :=
| error_nil
| errorString (s : string)
| wrapError (msg : string) (err : error)
| APIErrorPtr (p : option APIError).

(** [err != nil]. *)
Definition is_nil (err : error) : bool :=
  match err with error_nil => true | _ => false end.

(** [err.Error()]: dispatch on the dynamic type. *)
Definition Error (err : error) : outcome string :=
  match err with
  | error_nil => Panic
  | errorString s => Return s
  | wrapError msg _ => Return msg
  | APIErrorPtr None => Panic
  | APIErrorPtr (Some e) => Return (APIError_Error e)
  end.

(** [errors.Unwrap]. *)
Definition errors_Unwrap (err : error) : error :=
  match err with
  | wrapError _ inner => inner
  | _ => error_nil
  end.

(** [fmt.Errorf(text)], a format without verbs. *)
Definition fmt_Errorf (text : string) : error := errorString text.

(** How [fmt] prints an error operand under [%w]: its [Error()] text;
    ["<nil>"] when the method panics on a nil receiver; [%!w(<nil>)] for a
    nil interface, which is no error operand. *)
Definition fmt_w_operand (err : error) : string :=
  match err with
  | error_nil => "%!w(<nil>)"
  | _ => match Error err with Return s => s | Panic => "<nil>" end
  end.

(** [fmt.Errorf(prefix + "%w", err)]. *)
Definition fmt_Errorf_w (prefix : string) (err : error) : error :=
  wrapError (prefix ++ fmt_w_operand err) err.

(** The type assertion of [err] to a [*APIError]. *)
Definition as_APIErrorPtr (err : error) : option (option APIError) :=
  match err with
  | APIErrorPtr p => Some p
  | _ => None
  end.

(** Reading a field through a [*APIError]. *)
Definition deref {A : Type} (p : option APIError) (field : APIError -> A) : outcome A :=
  match p with
  | Some e => Return (field e)
  | None => Panic
  end.

Definition ErrInvalidCredentials : APIError :=
  mkAPIError ErrCodeInvalidCredentials "Invalid API credentials" StatusUnauthorized "" None.
Definition ErrNotFound : APIError :=
  mkAPIError ErrCodeNotFound "Resource not found" StatusNotFound "" None.
Definition ErrRateLimited : APIError :=
  mkAPIError ErrCodeRateLimitExceeded "Rate limit exceeded" StatusTooManyRequests "" None.
Definition ErrInsufficientBalance : APIError :=
  mkAPIError ErrCodeInsufficientBalance "Insufficient balance" StatusPaymentRequired "" None.
Definition ErrInvalidPhoneNumber : APIError :=
  mkAPIError ErrCodeInvalidPhoneNumber "Invalid phone number" StatusBadRequest "" None.

Definition IsAPIError (err : error) : bool :=
  match as_APIErrorPtr err with
  | Some _ => true
  | None => false
  end.

Definition GetStatusCode (err : error) : outcome Z :=
  match as_APIErrorPtr err with
  | Some apiErr => deref apiErr StatusCode
  | None => Return 0
  end.

Definition GetErrorCode (err : error) : outcome string :=
  match as_APIErrorPtr err with
  | Some apiErr => deref apiErr Code
  | None => Return ""
  end.

Definition IsErrorCode (err : error) (code : string) : outcome bool :=
  match as_APIErrorPtr err with
  | Some apiErr => deref apiErr (fun e => (Code e =? code)%string)
  | None => Return false
  end.

Definition NewAPIError (code message : string) (statusCode : Z) : APIError :=
  mkAPIError code message statusCode "" None.

(** [WrapError] returns a [*APIError]: [None] is the nil pointer. *)
Definition WrapError (err : error) (statusCode : Z) : outcome (option APIError) :=
  if is_nil err then Return None
  else
    match as_APIErrorPtr err with
    | Some apiErr => Return apiErr
    | None =>
        match Error err with
        | Return text => Return (Some (mkAPIError "" text statusCode "" None))
        | Panic => Panic
        end
    end.

Definition IsNotFound (err : error) : outcome bool :=
  match as_APIErrorPtr err with
  | Some apiErr =>
      deref apiErr (fun e =>
        (StatusCode e =? StatusNotFound) || (Code e =? ErrCodeNotFound)%string)
  | None => Return false
  end.

Definition IsUnauthorized (err : error) : outcome bool :=
  match as_APIErrorPtr err with
  | Some apiErr =>
      deref apiErr (fun e =>
        (StatusCode e =? StatusUnauthorized) || (Code e =? ErrCodeInvalidCredentials)%string)
  | None => Return false
  end.

Definition IsRateLimited (err : error) : outcome bool :=
  match as_APIErrorPtr err with
  | Some apiErr =>
      deref apiErr (fun e =>
        (StatusCode e =? StatusTooManyRequests) || (Code e =? ErrCodeRateLimitExceeded)%string)
  | None => Return false
  end.

Definition IsInsufficientBalance (err : error) : outcome bool :=
  match as_APIErrorPtr err with
  | Some apiErr =>
      deref apiErr (fun e =>
        (Code e =? ErrCodeInsufficientBalance)%string || (StatusCode e =? StatusPaymentRequired))
  | None => Return false
  end.

Definition IsBadRequest (err : error) : outcome bool :=
  match as_APIErrorPtr err with
  | Some apiErr =>
      deref apiErr (fun e =>
        (StatusCode e =? StatusBadRequest) || (Code e =? ErrCodeBadRequest)%string)
  | None => Return false
  end.

(** ** types.go: the payloads of the single and the bulk send *)

Module SendMessageRequest.
Record t : Type := mk {
  To : string;
  Message : string;
  DocumentLink : string;
  DocumentCaption : string;
  From : string;
  Params : Json.object_map
}.
End SendMessageRequest.

Module SendMessageResponse.
Record t : Type := mk {
  ID : string;
  Status : string;
  Message : string;
  To : string;
  Cost : float64;
  SentAt : string;
  Data : Json.object_map
}.
(** [var response SendMessageResponse]. *)
Definition zero : t := mk "" "" "" "" PrimFloat.zero "" None.
End SendMessageResponse.

Module BulkMessageItem.
Record t : Type := mk {
  To : string;
  Message : string;
  Params : option (list (string * string))
}.
End BulkMessageItem.

Module SendBulkMessageRequest.
Record t : Type := mk {
  Messages : list BulkMessageItem.t;
  From : string;
  Params : Json.object_map
}.
End SendBulkMessageRequest.

Module SendBulkMessageResponse.
Record t : Type := mk {
  Total : Z;
  Success : Z;
  Failed : Z;
  MessageIDs : list string;
  Results : list SendMessageResponse.t;
  Status : string;
  Data : Json.object_map
}.
(** [var response SendBulkMessageResponse]. *)
Definition zero : t := mk 0 0 0 [] [] "" None.
End SendBulkMessageResponse.

(** ** The collaborators of the pipeline *)

(** [encoding/json] works by reflection on the static type behind the
    [interface{}] it is given: one instance per payload type.
    [json_Marshal] returns the bytes or the error. [json_Unmarshal data v]
    returns what the destination holds after the call, starting from [v],
    and the error ([error_nil] on success). *)
Class Marshaler (B : Type) : Type := json_Marshal : B -> string + error.
Class Unmarshaler (V : Type) : Type := json_Unmarshal : string -> V -> V * error.

(** The body of the verbs without one ([nil]). *)
Definition no_body : Type := Empty_set.
#[export] Instance no_body_Marshaler : Marshaler no_body :=
  fun b => match b with end.

Module Request.
Record t : Type := mk {
  Method : string;
  URL : string;
  Header : list (string * string);
  Body : option string
}.
(** [req.Header.Set(key, value)]. *)
Definition Header_Set (key value : string) (req : t) : t :=
  mk (Method req) (URL req)
     ((filter (fun kv => negb (fst kv =? key)%string) (Header req) ++ [(key, value)])%list)
     (Body req).
End Request.

Module Response.
(** [Body] is what [io.ReadAll(resp.Body)] returns: the bytes and the error. *)
Record t : Type := mk {
  StatusCode : Z;
  Body : string * error
}.
End Response.

Definition io_ReadAll (r : string * error) : string * error := r.

(** What the pipeline does to the outside, in order. *)
Inductive event : Type :=
| EvNewRequest (req : Request.t)
| EvDo (req : Request.t)
| EvUnmarshal (data : string).

Definition trace : Type := list event.

(** Calls are functions of the trace so far. *)
Definition M (A : Type) : Type := trace -> A * trace.

Definition ret {A : Type} (a : A) : M A := fun tr => (a, tr).
Definition bind {A B : Type} (m : M A) (k : A -> M B) : M B :=
  fun tr => let (a, tr') := m tr in k a tr'.
Definition emit (e : event) : M unit := fun tr => (tt, (tr ++ [e])%list).

Notation "x <- m ;; k" := (bind m (fun x => k))
  (at level 61, m at next level, right associativity).
Notation "' p <- m ;; k" := (bind m (fun x => let p := x in k))
  (at level 61, p pattern, m at next level, right associativity).

(** ** The client and its generic pipeline *)

Definition DefaultBaseURL : string := "https://panel.signalads.com/api/v1".

Definition MethodGet : string := "GET".
Definition MethodPost : string := "POST".
Definition MethodPut : string := "PUT".
Definition MethodDelete : string := "DELETE".

(** What the pipeline asks of [net/url] and [net/http] besides the transport:
    - [url_with_query reqURL queryParams]: [url.Parse(reqURL)], then every
      parameter [Set] on its query, [Encode], [String]; the new URL, or the
      error of [url.Parse];
    - [http_NewRequest_error ctx method url]: the error of
      [http.NewRequestWithContext], [error_nil] when it builds the request. *)
Class NetLib (Context : Type) : Type := {
  url_with_query : string -> list (string * string) -> string + error;
  http_NewRequest_error : Context -> string -> string -> error
}.

Section Pipeline.

(** [context.Context]: the pipeline only hands it on. *)
Context {Context : Type}.

(** [httpClient] is the transport behind [http.Client.Do]: a response, or
    the (non-nil) error of a call that got none. *)
Record Client : Type := mkClient {
  baseURL : string;
  httpClient : Context -> Request.t -> Response.t + error;
  apiKey : string;
  apiSecret : string
}.

Context {net : NetLib Context}.

Definition doRequest {B : Type} {MB : Marshaler B}
    (c : Client) (ctx : Context) (method endpoint : string)
    (body : option B) (queryParams : list (string * string))
  : M (Response.t + error) :=
  let reqURL := baseURL c ++ endpoint in
  match (match queryParams with
         | [] => inl reqURL
         | _ :: _ => url_with_query reqURL queryParams
         end) with
  | inr err => ret (inr (fmt_Errorf_w "invalid URL: " err))
  | inl reqURL =>
      match (match body with
             | Some b =>
                 match json_Marshal b with
                 | inl jsonData => inl (Some jsonData)
                 | inr err => inr err
                 end
             | None => inl None
             end) with
      | inr err => ret (inr (fmt_Errorf_w "failed to marshal request body: " err))
      | inl reqBody =>
          let err := http_NewRequest_error ctx method reqURL in
          if negb (is_nil err) then
            ret (inr (fmt_Errorf_w "failed to create request: " err))
          else
            let req := Request.mk method reqURL [] reqBody in
            _ <- emit (EvNewRequest req) ;;
            let req := Request.Header_Set "Content-Type" "application/json" req in
            let req := Request.Header_Set "Accept" "application/json" req in
            let req := Request.Header_Set "X-API-Key" (apiKey c) req in
            let req := Request.Header_Set "X-API-Secret" (apiSecret c) req in
            _ <- emit (EvDo req) ;;
            match httpClient c ctx req with
            | inr err => ret (inr (fmt_Errorf_w "request failed: " err))
            | inl resp => ret (inl resp)
            end
      end
  end.

Definition getErrorCodeFromStatusCode (statusCode : Z) : string :=
  if statusCode =? StatusBadRequest then ErrCodeBadRequest
  else if statusCode =? StatusUnauthorized then ErrCodeInvalidCredentials
  else if statusCode =? StatusForbidden then ErrCodeForbidden
  else if statusCode =? StatusNotFound then ErrCodeNotFound
  else if statusCode =? StatusPaymentRequired then ErrCodeInsufficientBalance
  else if statusCode =? StatusTooManyRequests then ErrCodeRateLimitExceeded
  else if statusCode =? StatusInternalServerError then ErrCodeInternalServerError
  else if statusCode =? StatusServiceUnavailable then ErrCodeServiceUnavailable
  else "".

(** [json.Unmarshal(data, v)], seen from outside. *)
Definition unmarshal {V : Type} {UV : Unmarshaler V} (data : string) (v : V) : M (V * error) :=
  _ <- emit (EvUnmarshal data) ;;
  ret (json_Unmarshal data v).

(** [apiErr.StatusCode = statusCode]. *)
Definition set_StatusCode (statusCode : Z) (e : APIError) : APIError :=
  mkAPIError (Code e) (Message e) statusCode (ErrorMsg e) (Details e).

(** The branch of [parseResponse] for a status outside [200,300), once the
    body is read: the typed error it returns. *)
Definition parseErrorResponse {UE : Unmarshaler APIError}
    (statusCode : Z) (body : string) : M APIError :=
  let synthesized :=
    NewAPIError (getErrorCodeFromStatusCode statusCode)
      ("API error: status " ++ fmt_d statusCode ++ ", body: " ++ body)
      statusCode in
  '(apiErr, err) <- unmarshal body APIError_zero ;;
  if is_nil err then
    let apiErr :=
      if StatusCode apiErr =? 0 then set_StatusCode statusCode apiErr else apiErr in
    if nonempty (Message apiErr) || nonempty (Code apiErr) || nonempty (ErrorMsg apiErr)
    then ret apiErr
    else ret synthesized
  else ret synthesized.

(** [v] is the caller's result container: [None] for [nil], else what the
    pointer holds.  The call returns what it holds afterwards, and the error. *)
Definition parseResponse {V : Type} {UE : Unmarshaler APIError} {UV : Unmarshaler V}
    (c : Client) (resp : Response.t) (v : option V) : M (option V * error) :=
  let '(body, err) := io_ReadAll (Response.Body resp) in
  if negb (is_nil err) then
    ret (v, fmt_Errorf_w "failed to read response body: " err)
  else if (Response.StatusCode resp <? 200) || (Response.StatusCode resp >=? 300) then
    apiErr <- parseErrorResponse (Response.StatusCode resp) body ;;
    ret (v, APIErrorPtr (Some apiErr))
  else
    match v with
    | Some dst =>
        '(dst, err) <- unmarshal body dst ;;
        if negb (is_nil err) then
          ret (Some dst, fmt_Errorf_w "failed to unmarshal response: " err)
        else ret (Some dst, error_nil)
    | None => ret (None, error_nil)
    end.

Definition Get {V : Type} {UE : Unmarshaler APIError} {UV : Unmarshaler V}
    (c : Client) (ctx : Context) (endpoint : string) (result : option V)
    (queryParams : list (string * string)) : M (option V * error) :=
  r <- doRequest c ctx MethodGet endpoint (@None no_body) queryParams ;;
  match r with
  | inr err => ret (result, err)
  | inl resp => parseResponse c resp result
  end.

Definition Post {B V : Type} {MB : Marshaler B} {UE : Unmarshaler APIError}
    {UV : Unmarshaler V}
    (c : Client) (ctx : Context) (endpoint : string) (body : option B)
    (result : option V) : M (option V * error) :=
  r <- doRequest c ctx MethodPost endpoint body [] ;;
  match r with
  | inr err => ret (result, err)
  | inl resp => parseResponse c resp result
  end.

Definition Put {B V : Type} {MB : Marshaler B} {UE : Unmarshaler APIError}
    {UV : Unmarshaler V}
    (c : Client) (ctx : Context) (endpoint : string) (body : option B)
    (result : option V) : M (option V * error) :=
  r <- doRequest c ctx MethodPut endpoint body [] ;;
  match r with
  | inr err => ret (result, err)
  | inl resp => parseResponse c resp result
  end.

Definition Delete {V : Type} {UE : Unmarshaler APIError} {UV : Unmarshaler V}
    (c : Client) (ctx : Context) (endpoint : string) (result : option V)
  : M (option V * error) :=
  r <- doRequest c ctx MethodDelete endpoint (@None no_body) [] ;;
  match r with
  | inr err => ret (result, err)
  | inl resp => parseResponse c resp result
  end.

(** ** The message service *)

(** [Client.Messages] points back at the service; the service only reads
    its [client]. *)
Record MessagesService : Type := mkMessagesService {
  client : Client
}.

Context {UE : Unmarshaler APIError}.
Context {MSingle : Marshaler SendMessageRequest.t}
        {USingle : Unmarshaler SendMessageResponse.t}.
Context {MBulk : Marshaler SendBulkMessageRequest.t}
        {UBulk : Unmarshaler SendBulkMessageResponse.t}.

(** [req] is a pointer: [None] is [nil].  So is the response returned. *)
Definition SendSingleMessage (s : MessagesService) (ctx : Context)
    (req : option SendMessageRequest.t)
  : M (option SendMessageResponse.t * error) :=
  match req with
  | None => ret (None, fmt_Errorf "request cannot be nil")
  | Some r =>
      if (SendMessageRequest.To r =? "")%string then
        ret (None, fmt_Errorf "recipient phone number is required")
      else if (SendMessageRequest.Message r =? "")%string then
        ret (None, fmt_Errorf "message text is required")
      else
        '(response, err) <-
          Post (client s) ctx "/send-message/single" req (Some SendMessageResponse.zero) ;;
        if negb (is_nil err) then
          ret (None, fmt_Errorf_w "failed to send message: " err)
        else ret (response, error_nil)
  end.

Definition SendMessage (s : MessagesService) (ctx : Context) (to message : string)
  : M (option SendMessageResponse.t * error) :=
  SendSingleMessage s ctx
    (Some (SendMessageRequest.mk to message "" "" "" None)).

Definition SendBulkMessages (s : MessagesService) (ctx : Context)
    (req : option SendBulkMessageRequest.t)
  : M (option SendBulkMessageResponse.t * error) :=
  match req with
  | None => ret (None, fmt_Errorf "request cannot be nil")
  | Some r =>
      if (Z.of_nat (length (SendBulkMessageRequest.Messages r)) =? 0) then
        ret (None, fmt_Errorf "at least one message is required")
      else
        '(response, err) <-
          Post (client s) ctx "/send-message/bulk" req (Some SendBulkMessageResponse.zero) ;;
        if negb (is_nil err) then
          ret (None, fmt_Errorf_w "failed to send bulk messages: " err)
        else ret (response, error_nil)
  end.

Definition SendBulkMessage (s : MessagesService) (ctx : Context)
    (messages : list BulkMessageItem.t) (from : string)
  : M (option SendBulkMessageResponse.t * error) :=
  SendBulkMessages s ctx (Some (SendBulkMessageRequest.mk messages from None)).

End Pipeline.

Arguments Client : clear implicits.
Arguments MessagesService : clear implicits.

(** ** A JSON codec to run the pipeline on concrete exchanges

    The instances below stand in for [encoding/json] where a concrete
    exchange is evaluated, as the mock servers of the test-suite stand in
    for the service.  The reader follows the JSON grammar, apart from [\u]
    escapes beyond ASCII, which it rejects.  Keys are matched to fields as [encoding/json]
    does, ignoring letter case; [null] leaves a field as it is; a value of
    the wrong kind leaves the field as it is and the first such mismatch is
    the error returned, after the other fields are stored. *)

Module JsonText.

Definition is_ws (c : ascii) : bool :=
  let n := N_of_ascii c in
  ((n =? 32) || (n =? 9) || (n =? 10) || (n =? 13))%N.

Fixpoint skip_ws (s : string) : string :=
  match s with
  | String c r => if is_ws c then skip_ws r else s
  | EmptyString => s
  end.

Definition is_digit (c : ascii) : bool :=
  let n := N_of_ascii c in ((48 <=? n) && (n <=? 57))%N.

(** The longest prefix of digits, and the rest. *)
Fixpoint span_digits (s : string) : string * string :=
  match s with
  | String c r =>
      if is_digit c then let (d, rest) := span_digits r in (String c d, rest)
      else (EmptyString, s)
  | EmptyString => (EmptyString, s)
  end.

(** The character after a backslash. *)
Definition unescape (c : ascii) : option ascii :=
  let n := N_of_ascii c in
  if (n =? 34)%N then Some c
  else if (n =? 92)%N then Some c
  else if (n =? 47)%N then Some c
  else if (n =? 98)%N then Some (ascii_of_N 8)
  else if (n =? 102)%N then Some (ascii_of_N 12)
  else if (n =? 110)%N then Some (ascii_of_N 10)
  else if (n =? 114)%N then Some (ascii_of_N 13)
  else if (n =? 116)%N then Some (ascii_of_N 9)
  else None.

Definition hex_value (c : ascii) : option N :=
  let n := N_of_ascii c in
  if is_digit c then Some (n - 48)%N
  else if ((97 <=? n) && (n <=? 102))%N then Some (n - 87)%N
  else if ((65 <=? n) && (n <=? 70))%N then Some (n - 55)%N
  else None.

(** A string literal after its opening quote: the text and the rest. *)
Fixpoint read_string (s : string) : option (string * string) :=
  match s with
  | EmptyString => None
  | String c r =>
      let n := N_of_ascii c in
      if (n =? 34)%N then Some (EmptyString, r)
      else if (n =? 92)%N then
        match r with
        | EmptyString => None
        | String e r' =>
            if (N_of_ascii e =? 117)%N then
              match r' with
              | String h1 (String h2 (String h3 (String h4 r''))) =>
                  match hex_value h1, hex_value h2, hex_value h3, hex_value h4,
                        read_string r'' with
                  | Some 0%N, Some 0%N, Some a, Some b, Some (t, rest) =>
                      if (a <? 8)%N then Some (String (ascii_of_N (16 * a + b)) t, rest)
                      else None
                  | _, _, _, _, _ => None
                  end
              | _ => None
              end
            else
              match unescape e, read_string r' with
              | Some ch, Some (t, rest) => Some (String ch t, rest)
              | _, _ => None
              end
        end
      else if (n <? 32)%N then None
      else
        match read_string r with
        | Some (t, rest) => Some (String c t, rest)
        | None => None
        end
  end.

(** A number literal: the literal and the rest. *)
Definition read_number (s : string) : option (string * string) :=
  let (sign, s1) :=
    match s with
    | String c r => if (N_of_ascii c =? 45)%N then (String c EmptyString, r) else (EmptyString, s)
    | EmptyString => (EmptyString, s)
    end in
  let (int, s2) := span_digits s1 in
  match int with
  | EmptyString => None
  | String d more =>
      if (N_of_ascii d =? 48)%N && negb (more =? "")%string then None
      else
        let frac :=
          match s2 with
          | String c r =>
              if (N_of_ascii c =? 46)%N then
                let (f, s3) := span_digits r in
                if (f =? "")%string then None else Some (String c f, s3)
              else Some (EmptyString, s2)
          | EmptyString => Some (EmptyString, s2)
          end in
        match frac with
        | None => None
        | Some (f, s3) =>
            let exp :=
              match s3 with
              | String c r =>
                  if (N_of_ascii c =? 101)%N || (N_of_ascii c =? 69)%N then
                    let (sg, r1) :=
                      match r with
                      | String x r' =>
                          if (N_of_ascii x =? 43)%N || (N_of_ascii x =? 45)%N
                          then (String x EmptyString, r') else (EmptyString, r)
                      | EmptyString => (EmptyString, r)
                      end in
                    let (e, s4) := span_digits r1 in
                    if (e =? "")%string then None else Some (String c (sg ++ e), s4)
                  else Some (EmptyString, s3)
              | EmptyString => Some (EmptyString, s3)
              end in
            match exp with
            | None => None
            | Some (e, s4) => Some (sign ++ int ++ f ++ e, s4)
            end
        end
  end.

(** [s] starts with [p]: the rest. *)
Fixpoint strip_prefix (p s : string) : option string :=
  match p, s with
  | EmptyString, _ => Some s
  | String a p', String b s' => if (a =? b)%char then strip_prefix p' s' else None
  | String _ _, EmptyString => None
  end.

Fixpoint read_value (fuel : nat) (s : string) : option (Json.value * string) :=
  match fuel with
  | O => None
  | S fuel =>
      match skip_ws s with
      | EmptyString => None
      | String c r =>
          let n := N_of_ascii c in
          if (n =? 123)%N then
            match skip_ws r with
            | String c' r' =>
                if (N_of_ascii c' =? 125)%N then Some (Json.Object [], r')
                else
                  match read_members fuel (skip_ws r) with
                  | Some (ms, rest) => Some (Json.Object ms, rest)
                  | None => None
                  end
            | EmptyString => None
            end
          else if (n =? 91)%N then
            match skip_ws r with
            | String c' r' =>
                if (N_of_ascii c' =? 93)%N then Some (Json.Array [], r')
                else
                  match read_elements fuel r with
                  | Some (vs, rest) => Some (Json.Array vs, rest)
                  | None => None
                  end
            | EmptyString => None
            end
          else if (n =? 34)%N then
            match read_string r with
            | Some (t, rest) => Some (Json.Str t, rest)
            | None => None
            end
          else if (n =? 45)%N || is_digit c then
            match read_number (String c r) with
            | Some (lit, rest) => Some (Json.Number lit, rest)
            | None => None
            end
          else
            match strip_prefix "true" (String c r), strip_prefix "false" (String c r),
                  strip_prefix "null" (String c r) with
            | Some rest, _, _ => Some (Json.Boolean true, rest)
            | _, Some rest, _ => Some (Json.Boolean false, rest)
            | _, _, Some rest => Some (Json.Null, rest)
            | _, _, _ => None
            end
      end
  end

(** The elements of an array after [[] or [,], up to its []]. *)
with read_elements (fuel : nat) (s : string) : option (list Json.value * string) :=
  match fuel with
  | O => None
  | S fuel =>
      match read_value fuel s with
      | None => None
      | Some (v, rest) =>
          match skip_ws rest with
          | String c r =>
              if (N_of_ascii c =? 93)%N then Some ([v], r)
              else if (N_of_ascii c =? 44)%N then
                match read_elements fuel r with
                | Some (vs, rest') => Some (v :: vs, rest')
                | None => None
                end
              else None
          | EmptyString => None
          end
      end
  end

(** The members of an object, from the quote of a key up to its [}]. *)
with read_members (fuel : nat) (s : string) : option (list (string * Json.value) * string) :=
  match fuel with
  | O => None
  | S fuel =>
      match s with
      | String q r =>
          if (N_of_ascii q =? 34)%N then
            match read_string r with
            | None => None
            | Some (k, rest) =>
                match skip_ws rest with
                | String colon r1 =>
                    if (N_of_ascii colon =? 58)%N then
                      match read_value fuel r1 with
                      | None => None
                      | Some (v, rest1) =>
                          match skip_ws rest1 with
                          | String c r2 =>
                              if (N_of_ascii c =? 125)%N then Some ([(k, v)], r2)
                              else if (N_of_ascii c =? 44)%N then
                                match read_members fuel (skip_ws r2) with
                                | Some (ms, rest') => Some ((k, v) :: ms, rest')
                                | None => None
                                end
                              else None
                          | EmptyString => None
                          end
                      end
                    else None
                | EmptyString => None
                end
            end
          else None
      | EmptyString => None
      end
  end.

(** The quote character. *)
Definition dquote : string := String (ascii_of_N 34) EmptyString.

Definition hex_digit (n : N) : ascii :=
  if (n <? 10)%N then ascii_of_N (48 + n) else ascii_of_N (87 + n).

(** A character inside a string literal, as [json.Marshal] writes it. *)
Definition escape_char (c : ascii) : string :=
  let n := N_of_ascii c in
  let bs := String (ascii_of_N 92) EmptyString in
  if (n =? 34)%N || (n =? 92)%N then bs ++ String c EmptyString
  else if (n =? 10)%N then bs ++ "n"
  else if (n =? 13)%N then bs ++ "r"
  else if (n =? 9)%N then bs ++ "t"
  else if (n <? 32)%N || (n =? 60)%N || (n =? 62)%N || (n =? 38)%N then
    bs ++ "u00" ++ String (hex_digit (n / 16)) (String (hex_digit (n mod 16)) EmptyString)
  else String c EmptyString.

Fixpoint escape (s : string) : string :=
  match s with
  | EmptyString => EmptyString
  | String c r => escape_char c ++ escape r
  end.

Definition write_string (s : string) : string := dquote ++ escape s ++ dquote.

(** [xs] with [sep] between them. *)
Fixpoint join (sep : string) (xs : list string) : string :=
  match xs with
  | [] => EmptyString
  | [x] => x
  | x :: rest => x ++ sep ++ join sep rest
  end.

Fixpoint write (v : Json.value) : string :=
  match v with
  | Json.Null => "null"
  | Json.Boolean true => "true"
  | Json.Boolean false => "false"
  | Json.Number lit => lit
  | Json.Str s => write_string s
  | Json.Array items => "[" ++ join "," (map write items) ++ "]"
  | Json.Object members =>
      "{" ++ join "," (map (fun kv => write_string (fst kv) ++ ":" ++ write (snd kv)) members) ++ "}"
  end.

(** One JSON text, whitespace around it allowed. *)
Definition read (s : string) : option Json.value :=
  match read_value (2 * String.length s + 2) s with
  | Some (v, rest) => if (skip_ws rest =? "")%string then Some v else None
  | None => None
  end.

End JsonText.

Module Codec.

Definition lower_char (c : ascii) : ascii :=
  let n := N_of_ascii c in
  if ((65 <=? n) && (n <=? 90))%N then ascii_of_N (n + 32) else c.

Fixpoint lower (s : string) : string :=
  match s with
  | EmptyString => EmptyString
  | String c r => String (lower_char c) (lower r)
  end.

(** The first error met is the one reported. *)
Definition first_error (e1 e2 : error) : error :=
  if is_nil e1 then e2 else e1.

Definition mismatch (field : string) : error :=
  errorString ("json: cannot unmarshal value into Go struct field " ++ field).

(** The members of an object stored one by one, in order, into [dst];
    [store] gets the key in lower case. *)
Definition store_members {T : Type} (store : string -> Json.value -> T -> T * error)
    (members : list (string * Json.value)) (dst : T) : T * error :=
  fold_left
    (fun acc kv =>
       let '(d, e) := acc in
       let '(d', e') := store (lower (fst kv)) (snd kv) d in
       (d', first_error e e'))
    members (dst, error_nil).

(** A whole document into a struct. *)
Definition unmarshal_struct {T : Type} (store : string -> Json.value -> T -> T * error)
    (data : string) (dst : T) : T * error :=
  match JsonText.read data with
  | None =>
      if (JsonText.skip_ws data =? "")%string
      then (dst, errorString "unexpected end of JSON input")
      else (dst, errorString "invalid JSON text")
  | Some Json.Null => (dst, error_nil)
  | Some (Json.Object members) => store_members store members dst
  | Some _ => (dst, errorString "json: cannot unmarshal value into Go value")
  end.

Definition as_string (field : string) (v : Json.value) (old : string) : string * error :=
  match v with
  | Json.Str s => (s, error_nil)
  | Json.Null => (old, error_nil)
  | _ => (old, mismatch field)
  end.

(** An [int] field takes an integer literal within 64 bits. *)
Definition as_int (field : string) (v : Json.value) (old : Z) : Z * error :=
  match v with
  | Json.Number lit =>
      match NilZero.int_of_string lit with
      | Some d =>
          let z := Z.of_int d in
          if (- 2 ^ 63 <=? z) && (z <? 2 ^ 63) then (z, error_nil)
          else (old, mismatch field)
      | None => (old, mismatch field)
      end
  | Json.Null => (old, error_nil)
  | _ => (old, mismatch field)
  end.

(** A [float64] field; only integer literals below [2^53] in size are
    converted here, which needs no rounding. *)
Definition as_float (field : string) (v : Json.value) (old : float64) : float64 * error :=
  match v with
  | Json.Number lit =>
      match NilZero.int_of_string lit with
      | Some d =>
          let z := Z.of_int d in
          if (Z.abs z <=? 2 ^ 53) then
            let f := PrimFloat.of_uint63 (Uint63.of_Z (Z.abs z)) in
            ((if z <? 0 then PrimFloat.opp f else f), error_nil)
          else (old, errorString "number outside the literals converted here")
      | None => (old, errorString "number outside the literals converted here")
      end
  | Json.Null => (old, error_nil)
  | _ => (old, mismatch field)
  end.

(** [m[k] = v] on an association list. *)
Definition map_set {T : Type} (k : string) (v : T) (m : list (string * T)) : list (string * T) :=
  (filter (fun kv => negb (fst kv =? k)%string) m ++ [(k, v)])%list.

(** A [map[string]interface{}] field: the members are set on the map the
    field holds, a nil map made first. *)
Definition as_object (field : string) (v : Json.value) (old : Json.object_map)
  : Json.object_map * error :=
  match v with
  | Json.Object members =>
      (Some (fold_left (fun m kv => map_set (fst kv) (snd kv) m) members
               (match old with Some m => m | None => [] end)),
       error_nil)
  | Json.Null => (old, error_nil)
  | _ => (old, mismatch field)
  end.

Definition store_APIError (key : string) (v : Json.value) (e : APIError) : APIError * error :=
  if (key =? "code")%string then
    let '(x, err) := as_string "code" v (Code e) in
    (mkAPIError x (Message e) (StatusCode e) (ErrorMsg e) (Details e), err)
  else if (key =? "message")%string then
    let '(x, err) := as_string "message" v (Message e) in
    (mkAPIError (Code e) x (StatusCode e) (ErrorMsg e) (Details e), err)
  else if (key =? "status_code")%string then
    let '(x, err) := as_int "status_code" v (StatusCode e) in
    (mkAPIError (Code e) (Message e) x (ErrorMsg e) (Details e), err)
  else if (key =? "error")%string then
    let '(x, err) := as_string "error" v (ErrorMsg e) in
    (mkAPIError (Code e) (Message e) (StatusCode e) x (Details e), err)
  else if (key =? "details")%string then
    let '(x, err) := as_object "details" v (Details e) in
    (mkAPIError (Code e) (Message e) (StatusCode e) (ErrorMsg e) x, err)
  else (e, error_nil).

#[export] Instance APIError_Unmarshaler : Unmarshaler APIError :=
  unmarshal_struct store_APIError.

Definition store_SendMessageResponse (key : string) (v : Json.value)
    (r : SendMessageResponse.t) : SendMessageResponse.t * error :=
  let '(SendMessageResponse.mk id status message to cost sentAt data) := r in
  if (key =? "id")%string then
    let '(x, err) := as_string "id" v id in
    (SendMessageResponse.mk x status message to cost sentAt data, err)
  else if (key =? "status")%string then
    let '(x, err) := as_string "status" v status in
    (SendMessageResponse.mk id x message to cost sentAt data, err)
  else if (key =? "message")%string then
    let '(x, err) := as_string "message" v message in
    (SendMessageResponse.mk id status x to cost sentAt data, err)
  else if (key =? "to")%string then
    let '(x, err) := as_string "to" v to in
    (SendMessageResponse.mk id status message x cost sentAt data, err)
  else if (key =? "cost")%string then
    let '(x, err) := as_float "cost" v cost in
    (SendMessageResponse.mk id status message to x sentAt data, err)
  else if (key =? "sent_at")%string then
    let '(x, err) := as_string "sent_at" v sentAt in
    (SendMessageResponse.mk id status message to cost x data, err)
  else if (key =? "data")%string then
    let '(x, err) := as_object "data" v data in
    (SendMessageResponse.mk id status message to cost sentAt x, err)
  else (r, error_nil).

#[export] Instance SendMessageResponse_Unmarshaler : Unmarshaler SendMessageResponse.t :=
  unmarshal_struct store_SendMessageResponse.

(** A slice field: the array replaces the slice, each element decoded into
    a zero value. *)
Definition as_slice {T : Type} (field : string) (zero : T)
    (element : Json.value -> T -> T * error) (v : Json.value) (old : list T)
  : list T * error :=
  match v with
  | Json.Array items =>
      fold_left
        (fun acc item =>
           let '(xs, e) := acc in
           let '(x, e') := element item zero in
           ((xs ++ [x])%list, first_error e e'))
        items ([], error_nil)
  | Json.Null => (old, error_nil)
  | _ => (old, mismatch field)
  end.

Definition element_SendMessageResponse (v : Json.value) (zero : SendMessageResponse.t)
  : SendMessageResponse.t * error :=
  match v with
  | Json.Object members => store_members store_SendMessageResponse members zero
  | Json.Null => (zero, error_nil)
  | _ => (zero, mismatch "results")
  end.

Definition store_SendBulkMessageResponse (key : string) (v : Json.value)
    (r : SendBulkMessageResponse.t) : SendBulkMessageResponse.t * error :=
  let '(SendBulkMessageResponse.mk total success failed ids results status data) := r in
  if (key =? "total")%string then
    let '(x, err) := as_int "total" v total in
    (SendBulkMessageResponse.mk x success failed ids results status data, err)
  else if (key =? "success")%string then
    let '(x, err) := as_int "success" v success in
    (SendBulkMessageResponse.mk total x failed ids results status data, err)
  else if (key =? "failed")%string then
    let '(x, err) := as_int "failed" v failed in
    (SendBulkMessageResponse.mk total success x ids results status data, err)
  else if (key =? "message_ids")%string then
    let '(x, err) := as_slice "message_ids" "" (as_string "message_ids") v ids in
    (SendBulkMessageResponse.mk total success failed x results status data, err)
  else if (key =? "results")%string then
    let '(x, err) :=
      as_slice "results" SendMessageResponse.zero element_SendMessageResponse v results in
    (SendBulkMessageResponse.mk total success failed ids x status data, err)
  else if (key =? "status")%string then
    let '(x, err) := as_string "status" v status in
    (SendBulkMessageResponse.mk total success failed ids results x data, err)
  else if (key =? "data")%string then
    let '(x, err) := as_object "data" v data in
    (SendBulkMessageResponse.mk total success failed ids results status x, err)
  else (r, error_nil).

#[export] Instance SendBulkMessageResponse_Unmarshaler
  : Unmarshaler SendBulkMessageResponse.t :=
  unmarshal_struct store_SendBulkMessageResponse.

(** Struct fields in declaration order; [omitempty] drops empty strings and
    empty maps. *)
Definition field_always (name : string) (v : Json.value) : list (string * Json.value) :=
  [(name, v)].
Definition field_omitempty (name : string) (s : string) : list (string * Json.value) :=
  if (s =? "")%string then [] else [(name, Json.Str s)].
Definition field_map_omitempty (name : string) (m : Json.object_map)
  : list (string * Json.value) :=
  match m with
  | None | Some [] => []
  | Some members => [(name, Json.Object members)]
  end.

#[export] Instance SendMessageRequest_Marshaler : Marshaler SendMessageRequest.t :=
  fun r =>
    inl (JsonText.write (Json.Object
      (field_always "to" (Json.Str (SendMessageRequest.To r))
       ++ field_always "message" (Json.Str (SendMessageRequest.Message r))
       ++ field_omitempty "document_link" (SendMessageRequest.DocumentLink r)
       ++ field_omitempty "document_caption" (SendMessageRequest.DocumentCaption r)
       ++ field_omitempty "from" (SendMessageRequest.From r)
       ++ field_map_omitempty "params" (SendMessageRequest.Params r))%list)).

Definition value_of_BulkMessageItem (i : BulkMessageItem.t) : Json.value :=
  Json.Object
    (field_always "to" (Json.Str (BulkMessageItem.To i))
     ++ field_always "message" (Json.Str (BulkMessageItem.Message i))
     ++ field_map_omitempty "params"
          (option_map (map (fun kv => (fst kv, Json.Str (snd kv)))) (BulkMessageItem.Params i)))%list.

#[export] Instance SendBulkMessageRequest_Marshaler : Marshaler SendBulkMessageRequest.t :=
  fun r =>
    inl (JsonText.write (Json.Object
      (field_always "messages"
         (Json.Array (map value_of_BulkMessageItem (SendBulkMessageRequest.Messages r)))
       ++ field_omitempty "from" (SendBulkMessageRequest.From r)
       ++ field_map_omitempty "params" (SendBulkMessageRequest.Params r))%list)).

End Codec.

(** ** A mock server

    One exchange of the test-suite: whatever is asked, the transport answers
    with a fixed status and body, read without error. *)

Module Mock.

(** The mock has no use for a context. *)
Definition Context : Type := unit.

(** URLs and methods of the exchanges are well formed: the query is
    appended, [http.NewRequestWithContext] builds the request. *)
#[export] Instance net : NetLib Context := {|
  url_with_query reqURL queryParams :=
    inl (reqURL ++ "?" ++
         JsonText.join "&" (map (fun kv => fst kv ++ "=" ++ snd kv) queryParams));
  http_NewRequest_error _ _ _ := error_nil
|}.

Definition server (status : Z) (body : string) : Client Context :=
  mkClient "http://127.0.0.1" (fun _ _ => inl (Response.mk status (body, error_nil)))
    "test-key" "test-secret".

(** A transport that fails: no response at all. *)
Definition unreachable : Client Context :=
  mkClient "http://127.0.0.1" (fun _ _ => inr (errorString "connection refused"))
    "test-key" "test-secret".

Definition service (c : Client Context) : MessagesService Context := mkMessagesService c.

(** The error body of the test-suite:
    [{"message":"Invalid phone number","status_code":400}]. *)
Definition invalid_phone_body : string :=
  JsonText.write
    (Json.Object [("message", Json.Str "Invalid phone number");
                  ("status_code", Json.Number "400")]).

(** The success body of the test-suite:
    [{"id":"msg-123","status":"sent","to":"+1234567890"}]. *)
Definition sent_body : string :=
  JsonText.write
    (Json.Object [("id", Json.Str "msg-123"); ("status", Json.Str "sent");
                  ("to", Json.Str "+1234567890")]).

End Mock.

(** ** The remaining payloads *)

(** [time.Time] and its zero value: the library stores and returns
    timestamps, it never computes with them. *)
Class TimeLib : Type := {
  time_Time : Type;
  time_zero : time_Time
}.

Module SendTemplateMessageRequest.
Record t : Type := mk {
  To : string;
  TemplateID : string;
  TemplateParams : option (list (string * string));
  From : string;
  Params : Json.object_map
}.
End SendTemplateMessageRequest.

Module SendVoiceMessageRequest.
Record t : Type := mk {
  To : string;
  Message : string;
  AudioURL : string;
  VoiceType : string;
  Language : string;
  From : string;
  Params : Json.object_map
}.
End SendVoiceMessageRequest.

Module PaginationParams.
Record t : Type := mk {
  Page : Z;
  PerPage : Z
}.
End PaginationParams.

(** The struct [Message] of the listing. *)
Module MessageEntry.
Record t {time : TimeLib} : Type := mk {
  ID : string;
  To : string;
  From : string;
  Message : string;
  Status : string;
  Cost : float64;
  SentAt : time_Time;
  DeliveredAt : time_Time;
  ReadAt : time_Time;
  Error : string;
  CreatedAt : time_Time
}.
End MessageEntry.

Module ListMessagesResponse.
Record t {time : TimeLib} : Type := mk {
  Messages : list MessageEntry.t;
  Page : Z;
  PerPage : Z;
  Total : Z
}.
(** [var response ListMessagesResponse]. *)
Definition zero {time : TimeLib} : t := mk _ [] 0 0 0.
End ListMessagesResponse.

Module MessageStatus.
Record t {time : TimeLib} : Type := mk {
  ID : string;
  Status : string;
  To : string;
  SentAt : time_Time;
  DeliveredAt : time_Time;
  ReadAt : time_Time;
  Error : string;
  Cost : float64
}.
(** [var status MessageStatus]. *)
Definition zero {time : TimeLib} : t :=
  mk _ "" "" "" time_zero time_zero time_zero "" PrimFloat.zero.
End MessageStatus.

Module UserInfo.
Record t {time : TimeLib} : Type := mk {
  ID : string;
  Username : string;
  Email : string;
  Phone : string;
  Balance : float64;
  Credit : float64;
  Status : string;
  CreatedAt : time_Time;
  UpdatedAt : time_Time;
  Permissions : list string
}.
(** [var userInfo UserInfo]. *)
Definition zero {time : TimeLib} : t :=
  mk _ "" "" "" "" PrimFloat.zero PrimFloat.zero "" time_zero time_zero [].
End UserInfo.

(** [req.Header.Get(key)]: the value set for the key, the empty string when
    there is none. *)
Definition Header_Get (key : string) (req : Request.t) : string :=
  match find (fun kv => (fst kv =? key)%string) (Request.Header req) with
  | Some kv => snd kv
  | None => ""
  end.

(** ** The rest of the message service *)

Section MessageService.

Context {Context : Type} {net : NetLib Context} {UE : Unmarshaler APIError}.
Context {time : TimeLib}.
Context {MSingle : Marshaler SendMessageRequest.t}
        {USingle : Unmarshaler SendMessageResponse.t}.
Context {MTemplate : Marshaler SendTemplateMessageRequest.t}
        {MVoice : Marshaler SendVoiceMessageRequest.t}.
Context {UList : Unmarshaler ListMessagesResponse.t}
        {UStatus : Unmarshaler MessageStatus.t}
        {UUser : Unmarshaler UserInfo.t}.

Definition SendMessageWithDocument (s : MessagesService Context) (ctx : Context)
    (to message documentLink caption : string)
  : M (option SendMessageResponse.t * error) :=
  SendSingleMessage s ctx
    (Some (SendMessageRequest.mk to message documentLink caption "" None)).

Definition SendTemplateMessage (s : MessagesService Context) (ctx : Context)
    (req : option SendTemplateMessageRequest.t)
  : M (option SendMessageResponse.t * error) :=
  match req with
  | None => ret (None, fmt_Errorf "request cannot be nil")
  | Some r =>
      if (SendTemplateMessageRequest.To r =? "")%string then
        ret (None, fmt_Errorf "recipient phone number is required")
      else if (SendTemplateMessageRequest.TemplateID r =? "")%string then
        ret (None, fmt_Errorf "template ID is required")
      else
        '(response, err) <-
          Post (client s) ctx "/send-message/template" req
            (Some SendMessageResponse.zero) ;;
        if negb (is_nil err) then
          ret (None, fmt_Errorf_w "failed to send template message: " err)
        else ret (response, error_nil)
  end.

Definition SendTemplate (s : MessagesService Context) (ctx : Context)
    (to templateID : string) (params : option (list (string * string)))
  : M (option SendMessageResponse.t * error) :=
  SendTemplateMessage s ctx
    (Some (SendTemplateMessageRequest.mk to templateID params "" None)).

Definition SendVoiceMessage (s : MessagesService Context) (ctx : Context)
    (req : option SendVoiceMessageRequest.t)
  : M (option SendMessageResponse.t * error) :=
  match req with
  | None => ret (None, fmt_Errorf "request cannot be nil")
  | Some r =>
      if (SendVoiceMessageRequest.To r =? "")%string then
        ret (None, fmt_Errorf "recipient phone number is required")
      else if (SendVoiceMessageRequest.Message r =? "")%string
              && (SendVoiceMessageRequest.AudioURL r =? "")%string then
        ret (None, fmt_Errorf "either message text or audio URL is required")
      else
        '(response, err) <-
          Post (client s) ctx "/send-message/voice" req
            (Some SendMessageResponse.zero) ;;
        if negb (is_nil err) then
          ret (None, fmt_Errorf_w "failed to send voice message: " err)
        else ret (response, error_nil)
  end.

Definition SendVoice (s : MessagesService Context) (ctx : Context)
    (to message voiceType language : string)
  : M (option SendMessageResponse.t * error) :=
  SendVoiceMessage s ctx
    (Some (SendVoiceMessageRequest.mk to message "" voiceType language "" None)).

(** The query of [ListMessages]: a map with the keys ["page"] and
    ["per_page"], each present when its parameter is positive. *)
Definition ListMessages_query (params : option PaginationParams.t)
  : list (string * string) :=
  match params with
  | Some p =>
      ((if PaginationParams.Page p >? 0
        then [("page", fmt_d (PaginationParams.Page p))] else [])
       ++ (if PaginationParams.PerPage p >? 0
           then [("per_page", fmt_d (PaginationParams.PerPage p))] else []))%list
  | None => []
  end.

Definition ListMessages (s : MessagesService Context) (ctx : Context)
    (params : option PaginationParams.t)
  : M (option ListMessagesResponse.t * error) :=
  let queryParams := ListMessages_query params in
  '(response, err) <-
    Get (client s) ctx "/messages" (Some ListMessagesResponse.zero) queryParams ;;
  if negb (is_nil err) then
    ret (None, fmt_Errorf_w "failed to list messages: " err)
  else ret (response, error_nil).

Definition GetMessageStatus (s : MessagesService Context) (ctx : Context)
    (messageID : string) : M (option MessageStatus.t * error) :=
  if (messageID =? "")%string then
    ret (None, fmt_Errorf "message ID is required")
  else
    '(status, err) <-
      Get (client s) ctx ("/messages/" ++ messageID ++ "/status")
        (Some MessageStatus.zero) [] ;;
    if negb (is_nil err) then
      ret (None, fmt_Errorf_w "failed to get message status: " err)
    else ret (status, error_nil).

Definition GetUserInfo (s : MessagesService Context) (ctx : Context)
  : M (option UserInfo.t * error) :=
  '(userInfo, err) <-
    Get (client s) ctx "/user/info" (Some UserInfo.zero) [] ;;
  if negb (is_nil err) then
    ret (None, fmt_Errorf_w "failed to get user info: " err)
  else ret (userInfo, error_nil).

End MessageService.

(** ** More of the mock server

    Stand-ins for the exchanges that involve the remaining payloads:
    timestamps as numbers, and a decoder that checks that the body is a JSON
    text and stores nothing, for exchanges whose outcome does not depend on
    what is decoded. *)

Module MockMore.

#[export] Instance time : TimeLib := {| time_Time := Z; time_zero := 0 |}.

Definition syntax_only {V : Type} : Unmarshaler V :=
  fun data v =>
    match JsonText.read data with
    | Some _ => (v, error_nil)
    | None => (v, errorString "invalid JSON text")
    end.

#[export] Instance ListMessagesResponse_Unmarshaler : Unmarshaler ListMessagesResponse.t :=
  syntax_only.
#[export] Instance MessageStatus_Unmarshaler : Unmarshaler MessageStatus.t :=
  syntax_only.
#[export] Instance UserInfo_Unmarshaler : Unmarshaler UserInfo.t :=
  syntax_only.

#[export] Instance SendTemplateMessageRequest_Marshaler
  : Marshaler SendTemplateMessageRequest.t :=
  fun r =>
    inl (JsonText.write (Json.Object
      (Codec.field_always "to" (Json.Str (SendTemplateMessageRequest.To r))
       ++ Codec.field_always "template_id" (Json.Str (SendTemplateMessageRequest.TemplateID r))
       ++ Codec.field_map_omitempty "template_params"
            (option_map (map (fun kv => (fst kv, Json.Str (snd kv))))
               (SendTemplateMessageRequest.TemplateParams r))
       ++ Codec.field_omitempty "from" (SendTemplateMessageRequest.From r)
       ++ Codec.field_map_omitempty "params" (SendTemplateMessageRequest.Params r))%list)).

#[export] Instance SendVoiceMessageRequest_Marshaler
  : Marshaler SendVoiceMessageRequest.t :=
  fun r =>
    inl (JsonText.write (Json.Object
      (Codec.field_always "to" (Json.Str (SendVoiceMessageRequest.To r))
       ++ Codec.field_always "message" (Json.Str (SendVoiceMessageRequest.Message r))
       ++ Codec.field_omitempty "audio_url" (SendVoiceMessageRequest.AudioURL r)
       ++ Codec.field_omitempty "voice_type" (SendVoiceMessageRequest.VoiceType r)
       ++ Codec.field_omitempty "language" (SendVoiceMessageRequest.Language r)
       ++ Codec.field_omitempty "from" (SendVoiceMessageRequest.From r)
       ++ Codec.field_map_omitempty "params" (SendVoiceMessageRequest.Params r))%list)).

End MockMore.

(** ** Construction of a client

    [NewClient] allocates an [http.Client] and the options write through the
    pointer the client holds, so the [http.Client] values live in a store:
    a pointer is an index into it, [None] the nil pointer.  Of an
    [http.Client] the library reads and writes [Timeout] only; [settings]
    stands for its other fields.  A [time.Duration] is a number of
    nanoseconds. *)

Module Construction.

Definition Second : Z := 1000000000.
Definition DefaultTimeout : Z := 30 * Second.

Section Store.

(** The fields of [http.Client] besides [Timeout], and their zero value. *)
Variable Settings : Type.
Variable zero_settings : Settings.

Record http_Client : Type := mk_http_Client {
  Timeout : Z;
  settings : Settings
}.

Definition store : Type := list http_Client.

Record Client : Type := mkClient {
  baseURL : string;
  httpClient : option nat;
  apiKey : string;
  apiSecret : string
}.

(** [p.Timeout = timeout] through a pointer [p]. *)
Fixpoint set_Timeout (p : nat) (timeout : Z) (h : store) : store :=
  match h, p with
  | [], _ => []
  | hc :: rest, O => mk_http_Client timeout (settings hc) :: rest
  | hc :: rest, S p' => hc :: set_Timeout p' timeout rest
  end.

(** A [ClientOption] is a closure over the argument of its constructor;
    [apply_option] is its call on a [*Client]. *)
Inductive ClientOption : Type :=
| WithBaseURL (baseURL : string)
| WithHTTPClient (httpClient : option nat)
| WithTimeout (timeout : Z).

Definition apply_option (opt : ClientOption) (st : Client * store) : Client * store :=
  let (c, h) := st in
  match opt with
  | WithBaseURL u => (mkClient u (httpClient c) (apiKey c) (apiSecret c), h)
  | WithHTTPClient p => (mkClient (baseURL c) p (apiKey c) (apiSecret c), h)
  | WithTimeout timeout =>
      match httpClient c with
      | Some p => (c, set_Timeout p timeout h)
      | None => (c, h)
      end
  end.

(** [NewClient]: the client and the store afterwards.  The [Messages]
    service it attaches only points back at the client. *)
Definition NewClient (apiKey apiSecret : string) (opts : list ClientOption) (h : store)
  : Client * store :=
  let client := mkClient DefaultBaseURL (Some (length h)) apiKey apiSecret in
  let h := (h ++ [mk_http_Client DefaultTimeout zero_settings])%list in
  fold_left (fun st opt => apply_option opt st) opts (client, h).

(** The [http.Client] the client holds. *)
Definition held (st : Client * store) : option http_Client :=
  match httpClient (fst st) with
  | Some p => nth_error (snd st) p
  | None => None
  end.

(** The pointers handed over by [WithHTTPClient]. *)
Fixpoint handed (opts : list ClientOption) : list nat :=
  match opts with
  | [] => []
  | WithHTTPClient (Some p) :: rest => p :: handed rest
  | _ :: rest => handed rest
  end.

End Store.

End Construction.

(** A constructed client as the pipeline sees it, [Do] being how an
    [http.Client] performs a request; a client without [http.Client] has no
    transport. *)
Definition pipeline_client {Settings Context : Type}
    (Do : Construction.http_Client Settings -> Context -> Request.t -> Response.t + error)
    (st : Construction.Client * Construction.store Settings)
  : option (Client Context) :=
  match Construction.held Settings st with
  | Some hc =>
      Some (mkClient (Construction.baseURL (fst st)) (Do hc)
              (Construction.apiKey (fst st)) (Construction.apiSecret (fst st)))
  | None => None
  end.

(** For concrete runs: the caller's [http.Client], with a timeout of 7 and settings tagged 1,
    is the only one in the store. *)
Definition callers_store : Construction.store nat :=
  [Construction.mk_http_Client nat 7 1%nat].

(** ** Vocabulary of the statements *)

(** A predicate call returns, and returns [true] exactly when [P] holds. *)
Definition returns_iff (call : outcome bool) (P : Prop) : Prop :=
  exists b, call = Return b /\ (b = true <-> P).

(** The empty input is no JSON text: a decoder that follows
    [encoding/json] reports an error for it, whatever the destination. *)
Definition rejects_empty_input (V : Type) {UV : Unmarshaler V} : Prop :=
  forall v : V, snd (json_Unmarshal "" v) <> error_nil.

(** The error [parseResponse] returns when decoding the result fails. *)
Definition is_decode_error (err : error) : Prop :=
  exists cause,
    cause <> error_nil /\ err = fmt_Errorf_w "failed to unmarshal response: " cause.

(** A parsed error body with the response's status where it has none. *)
Definition backfilled (status : Z) (parsed : APIError) : APIError :=
  if StatusCode parsed =? 0 then set_StatusCode status parsed else parsed.

(** What a call adds to the trace. *)
Definition events_of {A : Type} (m : M A) (tr : trace) : trace :=
  skipn (length tr) (snd (m tr)).

(** The request as [http.NewRequestWithContext] returns it, before the
    headers are set. *)
Definition without_headers (req : Request.t) : Request.t :=
  Request.mk (Request.Method req) (Request.URL req) [] (Request.Body req).

(** The requests handed to the transport, in order. *)
Fixpoint sent_requests (evs : trace) : list Request.t :=
  match evs with
  | [] => []
  | EvDo req :: rest => req :: sent_requests rest
  | _ :: rest => sent_requests rest
  end.

(** How a call of the message service can end: the error is never a typed
    error itself, and there is a response exactly when there is no error. *)
Definition service_result {V : Type} (r : option V * error) : Prop :=
  IsAPIError (snd r) = false /\ (snd r = error_nil <-> fst r <> None).

(** [sent] is a request of client [c]: the method, the URL, the body, and
    the four headers the client puts on every request. *)
Definition carries {Context : Type} (c : Client Context) (method url : string)
    (body : option string) (sent : Request.t) : Prop :=
  Request.Method sent = method /\
  Request.URL sent = url /\
  Request.Body sent = body /\
  Header_Get "Content-Type" sent = "application/json" /\
  Header_Get "Accept" sent = "application/json" /\
  Header_Get "X-API-Key" sent = apiKey c /\
  Header_Get "X-API-Secret" sent = apiSecret c.

(** The base URLs given by [WithBaseURL] options, in order. *)
Fixpoint given_base_URLs (opts : list Construction.ClientOption) : list string :=
  match opts with
  | [] => []
  | Construction.WithBaseURL u :: rest => u :: given_base_URLs rest
  | _ :: rest => given_base_URLs rest
  end.

(** The first request a trace shows as sent, an empty one when none was. *)
Definition first_sent (evs : trace) : Request.t :=
  hd (Request.mk "" "" [] None) (sent_requests evs).

(** * Properties *)

(** ** Rendering of the typed error *)

Lemma nonempty_true (s : string) : nonempty s = true <-> s <> "".
Proof.
  unfold nonempty. destruct (String.eqb_spec s ""); simpl; split; congruence.
Qed.

Lemma nonempty_false (s : string) : nonempty s = false <-> s = "".
Proof.
  unfold nonempty. destruct (String.eqb_spec s ""); simpl; split; congruence.
Qed.

Lemma append_nonempty (a b : string) : a <> "" -> a ++ b <> "".
Proof.
  destruct a; simpl; [congruence | discriminate].
Qed.

(** C3: [Error()] on a typed error takes the first of four branches that
    applies: the message when there is one; else the alternate server text
    when there is one; else ["API error [<code>]: status <status>"] when there
    is a code; else ["API error: status <status>"].  A value with code
    [INVALID_PHONE] and status 400 renders as
    ["API error [INVALID_PHONE]: status 400"], one with only status 404 as
    ["API error: status 404"]. *)
Theorem APIError_Error_branches (e : APIError) :
  Error (APIErrorPtr (Some e)) = Return (APIError_Error e) /\
  (Message e <> "" -> APIError_Error e = Message e) /\
  (Message e = "" -> ErrorMsg e <> "" -> APIError_Error e = ErrorMsg e) /\
  (Message e = "" -> ErrorMsg e = "" -> Code e <> "" ->
   APIError_Error e = "API error [" ++ Code e ++ "]: status " ++ fmt_d (StatusCode e)) /\
  (Message e = "" -> ErrorMsg e = "" -> Code e = "" ->
   APIError_Error e = "API error: status " ++ fmt_d (StatusCode e)) /\
  APIError_Error (mkAPIError "INVALID_PHONE" "" 400 "" None)
    = "API error [INVALID_PHONE]: status 400" /\
  APIError_Error (mkAPIError "" "" 404 "" None) = "API error: status 404".
Proof.
  unfold APIError_Error.
  split; [reflexivity |].
  split; [intros Hm; apply nonempty_true in Hm; now rewrite Hm |].
  split.
  { intros Hm He. apply nonempty_false in Hm. apply nonempty_true in He.
    now rewrite Hm, He. }
  split.
  { intros Hm He Hc. apply nonempty_false in Hm, He. apply nonempty_true in Hc.
    now rewrite Hm, He, Hc. }
  split.
  { intros Hm He Hc. apply nonempty_false in Hm, He, Hc.
    now rewrite Hm, He, Hc. }
  split; reflexivity.
Qed.

(** The code-and-status branch, run on the literal of the test-suite. *)
Lemma APIError_Error_branches_witness :
  APIError_Error (mkAPIError "INVALID_PHONE" "" 400 "" None)
    = "API error [" ++ "INVALID_PHONE" ++ "]: status " ++ fmt_d 400.
Proof.
  destruct (APIError_Error_branches (mkAPIError "INVALID_PHONE" "" 400 "" None))
    as (_ & _ & _ & Hcode & _).
  apply Hcode; simpl; [reflexivity | reflexivity | discriminate].
Defined.

(** C10: no typed error renders as the empty string; with every text field
    empty the rendering is ["API error: status <n>"], also for the zero
    value. *)
Theorem APIError_Error_nonempty (e : APIError) :
  APIError_Error e <> "" /\
  (exists text, Error (APIErrorPtr (Some e)) = Return text /\ text <> "") /\
  APIError_Error (mkAPIError "" "" (StatusCode e) "" (Details e))
    = "API error: status " ++ fmt_d (StatusCode e) /\
  APIError_Error APIError_zero = "API error: status 0".
Proof.
  assert (Hne : APIError_Error e <> "").
  { unfold APIError_Error.
    destruct (nonempty (Message e)) eqn:Hm; [now apply nonempty_true |].
    destruct (nonempty (ErrorMsg e)) eqn:He; [now apply nonempty_true |].
    destruct (nonempty (Code e)); apply append_nonempty; discriminate. }
  split; [exact Hne |].
  split; [exists (APIError_Error e); split; [reflexivity | exact Hne] |].
  split; reflexivity.
Qed.

(** ** The classifier predicates *)

Lemma returns_iff_orb (b1 b2 : bool) (P Q : Prop) :
  (b1 = true <-> P) -> (b2 = true <-> Q) -> returns_iff (Return (b1 || b2)) (P \/ Q).
Proof.
  intros H1 H2. exists (b1 || b2). split; [reflexivity |].
  rewrite orb_true_iff. tauto.
Qed.

Lemma Z_eqb_iff (a b : Z) : (a =? b) = true <-> a = b.
Proof. apply Z.eqb_eq. Qed.

Lemma string_eqb_iff (a b : string) : (a =? b)%string = true <-> a = b.
Proof. apply String.eqb_eq. Qed.

(** C4: on a typed error each category predicate holds exactly when the
    status code is the category's or the error code is the category's; on
    an error that is not of the typed kind each returns [false]. *)
Theorem category_predicates (e : APIError) (other : error) :
  IsAPIError other = false ->
  (returns_iff (IsNotFound (APIErrorPtr (Some e)))
     (StatusCode e = 404 \/ Code e = "NOT_FOUND") /\
   returns_iff (IsUnauthorized (APIErrorPtr (Some e)))
     (StatusCode e = 401 \/ Code e = "INVALID_CREDENTIALS") /\
   returns_iff (IsRateLimited (APIErrorPtr (Some e)))
     (StatusCode e = 429 \/ Code e = "RATE_LIMIT_EXCEEDED") /\
   returns_iff (IsInsufficientBalance (APIErrorPtr (Some e)))
     (StatusCode e = 402 \/ Code e = "INSUFFICIENT_BALANCE") /\
   returns_iff (IsBadRequest (APIErrorPtr (Some e)))
     (StatusCode e = 400 \/ Code e = "BAD_REQUEST")) /\
  (IsNotFound other = Return false /\
   IsUnauthorized other = Return false /\
   IsRateLimited other = Return false /\
   IsInsufficientBalance other = Return false /\
   IsBadRequest other = Return false).
Proof.
  intros Hother. split.
  - unfold IsNotFound, IsUnauthorized, IsRateLimited, IsInsufficientBalance,
      IsBadRequest; simpl.
    repeat split;
      try (apply returns_iff_orb; [apply Z_eqb_iff | apply string_eqb_iff]).
    exists ((Code e =? ErrCodeInsufficientBalance)%string
            || (StatusCode e =? StatusPaymentRequired)).
    split; [reflexivity |].
    rewrite orb_true_iff, Z_eqb_iff, string_eqb_iff.
    unfold ErrCodeInsufficientBalance, StatusPaymentRequired. tauto.
  - destruct other as [| s | msg inner | p]; simpl in Hother;
      [| | | discriminate]; repeat split; reflexivity.
Qed.

(** Either trigger alone is enough: a 404 without a code, and a code
    [NOT_FOUND] under status 500; a wrapped typed error is not of the kind. *)
Lemma category_predicates_witness :
  returns_iff (IsNotFound (APIErrorPtr (Some (mkAPIError "" "" 404 "" None))))
    (404 = 404 \/ "" = "NOT_FOUND") /\
  IsNotFound (wrapError "failed: Resource not found" (APIErrorPtr (Some ErrNotFound)))
    = Return false.
Proof.
  pose proof (category_predicates (mkAPIError "" "" 404 "" None)
                (wrapError "failed: Resource not found" (APIErrorPtr (Some ErrNotFound)))
                eq_refl) as [[Hnf _] [Hother _]].
  split; [exact Hnf | exact Hother].
Defined.

(** ** [WrapError] *)

(** C7: [WrapError] gives the nil pointer for the nil error whatever the
    status code; gives back the very pointer of an error that is already a
    typed error; and for any other error builds a typed error whose message
    is the error's text and whose status code is the fallback. *)
Theorem WrapError_cases (err : error) (p : option APIError) (s : Z) :
  WrapError error_nil s = Return None /\
  WrapError (APIErrorPtr p) s = Return p /\
  (err <> error_nil -> IsAPIError err = false ->
   exists text,
     Error err = Return text /\
     WrapError err s = Return (Some (mkAPIError "" text s "" None))).
Proof.
  split; [reflexivity |]. split; [reflexivity |].
  intros Hnil Hkind.
  destruct err as [| text | msg inner | q]; simpl in Hkind.
  - congruence.
  - exists text. split; reflexivity.
  - exists msg. split; reflexivity.
  - discriminate.
Qed.

(** A plain error wrapped under status 500, as the test-suite does. *)
Lemma WrapError_cases_witness :
  exists text,
    Error (fmt_Errorf "test error") = Return text /\
    WrapError (fmt_Errorf "test error") 500
      = Return (Some (mkAPIError "" text 500 "" None)).
Proof.
  apply (proj2 (proj2 (WrapError_cases (fmt_Errorf "test error") None 500)));
    [discriminate | reflexivity].
Defined.

(** ** The fallback table *)

(** C8: the error code for a status code: the eight listed statuses map to
    their codes, every other status to the empty string. *)
Theorem getErrorCodeFromStatusCode_table (statusCode : Z) :
  getErrorCodeFromStatusCode 400 = "BAD_REQUEST" /\
  getErrorCodeFromStatusCode 401 = "INVALID_CREDENTIALS" /\
  getErrorCodeFromStatusCode 403 = "FORBIDDEN" /\
  getErrorCodeFromStatusCode 404 = "NOT_FOUND" /\
  getErrorCodeFromStatusCode 402 = "INSUFFICIENT_BALANCE" /\
  getErrorCodeFromStatusCode 429 = "RATE_LIMIT_EXCEEDED" /\
  getErrorCodeFromStatusCode 500 = "INTERNAL_SERVER_ERROR" /\
  getErrorCodeFromStatusCode 503 = "SERVICE_UNAVAILABLE" /\
  (~ In statusCode [400; 401; 403; 404; 402; 429; 500; 503] ->
   getErrorCodeFromStatusCode statusCode = "").
Proof.
  repeat (split; [reflexivity |]).
  intros Hout. simpl in Hout.
  unfold getErrorCodeFromStatusCode, StatusBadRequest, StatusUnauthorized,
    StatusForbidden, StatusNotFound, StatusPaymentRequired, StatusTooManyRequests,
    StatusInternalServerError, StatusServiceUnavailable.
  repeat match goal with
         | |- context [ (statusCode =? ?k) ] =>
             destruct (Z.eqb_spec statusCode k); [exfalso; lia |]
         end.
  reflexivity.
Qed.

(** A status outside the table, 418, has no code. *)
Lemma getErrorCodeFromStatusCode_table_witness :
  getErrorCodeFromStatusCode 418 = "".
Proof.
  apply (getErrorCodeFromStatusCode_table 418).
  simpl. intros H. repeat (destruct H as [H | H]; [discriminate H |]). exact H.
Defined.

(** ** The response handling of the pipeline *)

Section PipelineProperties.

Context {Context : Type} {net : NetLib Context} {UE : Unmarshaler APIError}.

Lemma status_outside (status : Z) :
  status < 200 \/ 300 <= status -> (status <? 200) || (status >=? 300) = true.
Proof.
  intros [Hlo | Hhi]; apply orb_true_iff; [left | right].
  - now apply Z.ltb_lt.
  - apply Z.geb_le. lia.
Qed.

Lemma status_inside (status : Z) :
  200 <= status < 300 -> (status <? 200) || (status >=? 300) = false.
Proof.
  intros [Hlo Hhi]. apply orb_false_iff. split.
  - now apply Z.ltb_ge.
  - destruct (status >=? 300) eqn:E; [| reflexivity].
    apply Z.geb_le in E. lia.
Qed.

(** The classifier decodes once and touches nothing else. *)
Lemma parseErrorResponse_trace (status : Z) (body : string) (tr : trace) :
  snd (parseErrorResponse status body tr) = (tr ++ [EvUnmarshal body])%list.
Proof.
  unfold parseErrorResponse, unmarshal, bind, emit, ret.
  destruct (json_Unmarshal body APIError_zero) as [parsed err].
  destruct (is_nil err); [| reflexivity].
  match goal with |- context [ if ?b then _ else _ ] => destruct b end; reflexivity.
Qed.

(** Its result does not depend on what happened before. *)
Lemma parseErrorResponse_value (status : Z) (body : string) (tr : trace) :
  fst (parseErrorResponse status body tr) = fst (parseErrorResponse status body []).
Proof.
  unfold parseErrorResponse, unmarshal, bind, emit, ret.
  destruct (json_Unmarshal body APIError_zero) as [parsed err].
  destruct (is_nil err); [| reflexivity].
  match goal with |- context [ if ?b then _ else _ ] => destruct b end; reflexivity.
Qed.

Lemma parseResponse_outside {V : Type} {UV : Unmarshaler V}
    (c : Client Context) (resp : Response.t) (body : string) (v : option V) (tr : trace) :
  Response.Body resp = (body, error_nil) ->
  Response.StatusCode resp < 200 \/ 300 <= Response.StatusCode resp ->
  parseResponse c resp v tr =
    ((v, APIErrorPtr (Some (fst (parseErrorResponse (Response.StatusCode resp) body [])))),
     (tr ++ [EvUnmarshal body])%list).
Proof.
  intros Hbody Hstatus.
  unfold parseResponse, io_ReadAll. rewrite Hbody. simpl.
  rewrite (status_outside _ Hstatus).
  unfold bind, ret.
  pose proof (parseErrorResponse_value (Response.StatusCode resp) body tr) as Hvalue.
  pose proof (parseErrorResponse_trace (Response.StatusCode resp) body tr) as Htrace.
  destruct (parseErrorResponse (Response.StatusCode resp) body tr) as [e tr'].
  simpl in Hvalue, Htrace. now rewrite <- Hvalue, Htrace.
Qed.

(** C1: for a response outside [200,300) the body is parsed as a typed
    error; if that succeeds and the message, the code or the alternate text
    is non-empty, the parsed value is the error returned, its status code
    set to the response's when it was zero; otherwise the error returned is
    synthesized: code from the fallback table, message
    ["API error: status <status>, body: <body>"], status code the response's. *)
Theorem parseResponse_classifies {V : Type} {UV : Unmarshaler V}
    (c : Client Context) (resp : Response.t) (body : string) (v : option V) (tr : trace) :
  Response.Body resp = (body, error_nil) ->
  Response.StatusCode resp < 200 \/ 300 <= Response.StatusCode resp ->
  let status := Response.StatusCode resp in
  let parsed := fst (json_Unmarshal body APIError_zero) in
  let err := snd (json_Unmarshal body APIError_zero) in
  exists e,
    fst (parseResponse c resp v tr) = (v, APIErrorPtr (Some e)) /\
    (err = error_nil ->
     Message parsed <> "" \/ Code parsed <> "" \/ ErrorMsg parsed <> "" ->
     Code e = Code parsed /\ Message e = Message parsed /\
     ErrorMsg e = ErrorMsg parsed /\ Details e = Details parsed /\
     (StatusCode parsed = 0 -> StatusCode e = status) /\
     (StatusCode parsed <> 0 -> StatusCode e = StatusCode parsed)) /\
    (err <> error_nil \/ (Message parsed = "" /\ Code parsed = "" /\ ErrorMsg parsed = "") ->
     e = mkAPIError (getErrorCodeFromStatusCode status)
           ("API error: status " ++ fmt_d status ++ ", body: " ++ body)
           status "" None).
Proof.
  intros Hbody Hstatus status parsed err.
  exists (fst (parseErrorResponse status body [])).
  split; [now rewrite (parseResponse_outside c resp body v tr Hbody Hstatus) |].
  unfold parseErrorResponse, unmarshal, bind, emit, ret.
  subst parsed err.
  destruct (json_Unmarshal body APIError_zero) as [parsed err]. simpl.
  split.
  - intros -> Htext. simpl.
    assert (Hkeep : forall a, nonempty (Message (if StatusCode parsed =? 0
                       then set_StatusCode a parsed else parsed))
                     || nonempty (Code (if StatusCode parsed =? 0
                       then set_StatusCode a parsed else parsed))
                     || nonempty (ErrorMsg (if StatusCode parsed =? 0
                       then set_StatusCode a parsed else parsed)) = true).
    { intros a. destruct (StatusCode parsed =? 0); simpl;
        rewrite !orb_true_iff, !nonempty_true; tauto. }
    rewrite Hkeep. simpl.
    destruct (Z.eqb_spec (StatusCode parsed) 0); simpl; repeat split; congruence.
  - intros [Herr | (Hm & Hc & He)].
    + destruct err; [congruence | reflexivity ..].
    + destruct (is_nil err); [| reflexivity].
      assert (Hnone : nonempty (Message (if StatusCode parsed =? 0
                        then set_StatusCode status parsed else parsed))
                      || nonempty (Code (if StatusCode parsed =? 0
                        then set_StatusCode status parsed else parsed))
                      || nonempty (ErrorMsg (if StatusCode parsed =? 0
                        then set_StatusCode status parsed else parsed)) = false).
      { destruct (StatusCode parsed =? 0); simpl; rewrite Hm, Hc, He; reflexivity. }
      now rewrite Hnone.
Qed.

Lemma parseResponse_inside_nil {V : Type} {UV : Unmarshaler V}
    (c : Client Context) (resp : Response.t) (body : string) (tr : trace) :
  Response.Body resp = (body, error_nil) ->
  200 <= Response.StatusCode resp < 300 ->
  parseResponse c resp (@None V) tr = ((None, error_nil), tr).
Proof.
  intros Hbody Hstatus.
  unfold parseResponse, io_ReadAll. rewrite Hbody. simpl.
  now rewrite (status_inside _ Hstatus).
Qed.

Ltac after_request Hreq :=
  unfold Get, Post, Put, Delete, bind; rewrite Hreq.

(** C5: once a verb has its response and the body is read: with a status
    outside [200,300) it returns the typed error of the classifier and the
    result container is as it was; with a status in [200,300) and no result
    container it returns no error and decodes nothing. *)
Theorem verbs_frame {B V : Type} {MB : Marshaler B} {UV : Unmarshaler V}
    (c : Client Context) (ctx : Context) (endpoint : string) (body : option B)
    (queryParams : list (string * string)) (result : option V)
    (resp : Response.t) (data : string) (tr tr' : trace) :
  Response.Body resp = (data, error_nil) ->
  let status := Response.StatusCode resp in
  let typed := APIErrorPtr (Some (fst (parseErrorResponse status data []))) in
  (status < 200 \/ 300 <= status ->
   (doRequest c ctx MethodGet endpoint (@None no_body) queryParams tr = (inl resp, tr') ->
    Get c ctx endpoint result queryParams tr
      = ((result, typed), (tr' ++ [EvUnmarshal data])%list)) /\
   (doRequest c ctx MethodPost endpoint body [] tr = (inl resp, tr') ->
    Post c ctx endpoint body result tr
      = ((result, typed), (tr' ++ [EvUnmarshal data])%list)) /\
   (doRequest c ctx MethodPut endpoint body [] tr = (inl resp, tr') ->
    Put c ctx endpoint body result tr
      = ((result, typed), (tr' ++ [EvUnmarshal data])%list)) /\
   (doRequest c ctx MethodDelete endpoint (@None no_body) [] tr = (inl resp, tr') ->
    Delete c ctx endpoint result tr
      = ((result, typed), (tr' ++ [EvUnmarshal data])%list))) /\
  (200 <= status < 300 ->
   (doRequest c ctx MethodGet endpoint (@None no_body) queryParams tr = (inl resp, tr') ->
    Get c ctx endpoint (@None V) queryParams tr = ((None, error_nil), tr')) /\
   (doRequest c ctx MethodPost endpoint body [] tr = (inl resp, tr') ->
    Post c ctx endpoint body (@None V) tr = ((None, error_nil), tr')) /\
   (doRequest c ctx MethodPut endpoint body [] tr = (inl resp, tr') ->
    Put c ctx endpoint body (@None V) tr = ((None, error_nil), tr')) /\
   (doRequest c ctx MethodDelete endpoint (@None no_body) [] tr = (inl resp, tr') ->
    Delete c ctx endpoint (@None V) tr = ((None, error_nil), tr'))).
Proof.
  intros Hbody status typed. split; intros Hstatus.
  - repeat split; intros Hreq; after_request Hreq;
      apply (parseResponse_outside c resp data result tr' Hbody Hstatus).
  - repeat split; intros Hreq; after_request Hreq;
      apply (parseResponse_inside_nil c resp data tr' Hbody Hstatus).
Qed.

(** C6: for a status in [200,300) and a result container, the body is
    decoded into the container once; the call returns no error when the
    decoder accepts the body and a decode error, wrapping the decoder's,
    when it does not; the empty body, which no JSON decoder accepts, gives
    a decode error. *)
Theorem parseResponse_decodes {V : Type} {UV : Unmarshaler V}
    (c : Client Context) (resp : Response.t) (data : string) (dst : V) (tr : trace) :
  Response.Body resp = (data, error_nil) ->
  200 <= Response.StatusCode resp < 300 ->
  let decoded := fst (json_Unmarshal data dst) in
  let cause := snd (json_Unmarshal data dst) in
  let returned := snd (fst (parseResponse c resp (Some dst) tr)) in
  fst (fst (parseResponse c resp (Some dst) tr)) = Some decoded /\
  snd (parseResponse c resp (Some dst) tr) = (tr ++ [EvUnmarshal data])%list /\
  (cause = error_nil <-> returned = error_nil) /\
  (cause <> error_nil <-> is_decode_error returned) /\
  (cause <> error_nil ->
   returned = wrapError ("failed to unmarshal response: " ++ fmt_w_operand cause) cause) /\
  (data = "" -> rejects_empty_input V -> is_decode_error returned).
Proof.
  intros Hbody Hstatus decoded cause returned.
  subst decoded cause returned.
  unfold parseResponse, io_ReadAll. rewrite Hbody. simpl.
  rewrite (status_inside _ Hstatus).
  unfold unmarshal, bind, emit, ret.
  destruct (json_Unmarshal data dst) as [decoded cause] eqn:Hdecode. simpl.
  destruct (is_nil cause) eqn:Hnil; simpl.
  - assert (cause = error_nil) as -> by (destruct cause; [reflexivity | discriminate ..]).
    split; [reflexivity |]. split; [reflexivity |].
    split; [tauto |].
    split; [split; [congruence | intros (x & _ & Hx); discriminate Hx] |].
    split; [congruence |].
    intros -> Hrej. exfalso. apply (Hrej dst). now rewrite Hdecode.
  - assert (cause <> error_nil) as Herr by (intros ->; discriminate).
    split; [reflexivity |]. split; [reflexivity |].
    split; [split; [congruence | discriminate] |].
    split; [split; [intros _; now exists cause | congruence] |].
    split; [reflexivity |].
    intros _ _. now exists cause.
Qed.

(** ** The message service *)

Context {MSingle : Marshaler SendMessageRequest.t}
        {USingle : Unmarshaler SendMessageResponse.t}.
Context {MBulk : Marshaler SendBulkMessageRequest.t}
        {UBulk : Unmarshaler SendBulkMessageResponse.t}.

(** C9: the single send with an empty recipient and the bulk send with an
    empty message list return a local validation error and leave the trace
    as it was: no request is built, none is sent. *)
Theorem validation_before_transport (s : MessagesService Context) (ctx : Context)
    (single : SendMessageRequest.t) (bulk : SendBulkMessageRequest.t) (tr : trace) :
  (SendMessageRequest.To single = "" ->
   SendSingleMessage s ctx (Some single) tr
     = ((None, errorString "recipient phone number is required"), tr)) /\
  (SendBulkMessageRequest.Messages bulk = [] ->
   SendBulkMessages s ctx (Some bulk) tr
     = ((None, errorString "at least one message is required"), tr)).
Proof.
  split; intros Hempty.
  - unfold SendSingleMessage. now rewrite Hempty.
  - unfold SendBulkMessages. now rewrite Hempty.
Qed.

Lemma backfilled_fields (status : Z) (parsed : APIError) :
  Code (backfilled status parsed) = Code parsed /\
  Message (backfilled status parsed) = Message parsed /\
  ErrorMsg (backfilled status parsed) = ErrorMsg parsed /\
  StatusCode (backfilled status parsed)
    = (if StatusCode parsed =? 0 then status else StatusCode parsed).
Proof.
  unfold backfilled. destruct (StatusCode parsed =? 0); repeat split; reflexivity.
Qed.

End PipelineProperties.

(** ** Concrete exchanges

    The theorems above, run against the mock server with the JSON codec. *)

Import Codec Mock.

(** The two bodies, character by character. *)
Lemma mock_bodies_text :
  invalid_phone_body =
    "{" ++ JsonText.dquote ++ "message" ++ JsonText.dquote ++ ":"
        ++ JsonText.dquote ++ "Invalid phone number" ++ JsonText.dquote ++ ","
        ++ JsonText.dquote ++ "status_code" ++ JsonText.dquote ++ ":400}" /\
  sent_body =
    "{" ++ JsonText.dquote ++ "id" ++ JsonText.dquote ++ ":"
        ++ JsonText.dquote ++ "msg-123" ++ JsonText.dquote ++ ","
        ++ JsonText.dquote ++ "status" ++ JsonText.dquote ++ ":"
        ++ JsonText.dquote ++ "sent" ++ JsonText.dquote ++ ","
        ++ JsonText.dquote ++ "to" ++ JsonText.dquote ++ ":"
        ++ JsonText.dquote ++ "+1234567890" ++ JsonText.dquote ++ "}".
Proof. split; reflexivity. Qed.

(** The codec reports an error for the empty input. *)
Lemma codec_rejects_empty_input {T : Type}
    (store : string -> Json.value -> T -> T * error) :
  rejects_empty_input T (UV := unmarshal_struct store).
Proof. intros v. discriminate. Qed.

(** The success exchange of the test-suite: the response carries the
    identifier the server sent. *)
Lemma SendMessage_sent :
  fst (SendMessage (service (server 200 sent_body)) tt "+1234567890" "hi" [])
  = (Some (SendMessageResponse.mk "msg-123" "sent" "" "+1234567890"
             PrimFloat.zero "" None),
     error_nil).
Proof. vm_compute. reflexivity. Qed.

Definition single_request : SendMessageRequest.t :=
  SendMessageRequest.mk "+989123456789" "Test" "" "" "" None.

(** A 500 answered with a page that is no JSON: the synthesized error. *)
Lemma parseResponse_classifies_witness :
  exists e,
    fst (parseResponse (server 500 "<html>oops</html>")
           (Response.mk 500 ("<html>oops</html>", error_nil))
           (Some SendMessageResponse.zero) [])
      = (Some SendMessageResponse.zero, APIErrorPtr (Some e)) /\
    e = mkAPIError "INTERNAL_SERVER_ERROR"
          "API error: status 500, body: <html>oops</html>" 500 "" None.
Proof.
  destruct (parseResponse_classifies (server 500 "<html>oops</html>")
              (Response.mk 500 ("<html>oops</html>", error_nil))
              "<html>oops</html>" (Some SendMessageResponse.zero) []
              eq_refl ltac:(right; simpl; lia))
    as (e & Hrun & _ & Hsynth).
  exists e. split; [exact Hrun |].
  apply Hsynth. left. discriminate.
Defined.

(** A 404 on a [GET] leaves the container alone; a 204 with no container
    decodes nothing. *)
Lemma verbs_frame_witness :
  Get (server 404 "") tt "/messages" (Some SendMessageResponse.zero) [] []
    = ((Some SendMessageResponse.zero,
        APIErrorPtr (Some (fst (parseErrorResponse 404 "" [])))),
       (snd (doRequest (server 404 "") tt MethodGet "/messages" (@None no_body) [] [])
        ++ [EvUnmarshal ""])%list) /\
  Delete (server 204 "") tt "/messages/1" (@None SendMessageResponse.t) []
    = ((None, error_nil),
       snd (doRequest (server 204 "") tt MethodDelete "/messages/1" (@None no_body) [] [])).
Proof.
  split.
  - apply (verbs_frame (server 404 "") tt "/messages" (@None no_body) []
             (Some SendMessageResponse.zero) (Response.mk 404 ("", error_nil)) "" []
             _ eq_refl);
      [right; simpl; lia | reflexivity].
  - apply (verbs_frame (V := SendMessageResponse.t) (server 204 "") tt "/messages/1"
             (@None no_body) [] None (Response.mk 204 ("", error_nil)) "" []
             _ eq_refl);
      [simpl; lia | reflexivity].
Defined.

(** A 200 with an empty body and a container: a decode error. *)
Lemma parseResponse_decodes_witness :
  is_decode_error
    (snd (fst (parseResponse (server 200 "") (Response.mk 200 ("", error_nil))
                 (Some SendMessageResponse.zero) []))).
Proof.
  apply (parseResponse_decodes (server 200 "") (Response.mk 200 ("", error_nil)) ""
           SendMessageResponse.zero [] eq_refl ltac:(simpl; lia));
    [reflexivity | apply codec_rejects_empty_input].
Defined.

(** No recipient, no messages: nothing reaches the server. *)
Lemma validation_before_transport_witness :
  SendSingleMessage (service (server 200 sent_body)) tt
    (Some (SendMessageRequest.mk "" "hi" "" "" "" None)) []
    = ((None, errorString "recipient phone number is required"), []) /\
  SendBulkMessages (service (server 200 sent_body)) tt
    (Some (SendBulkMessageRequest.mk [] "" None)) []
    = ((None, errorString "at least one message is required"), []).
Proof.
  destruct (validation_before_transport (service (server 200 sent_body)) tt
              (SendMessageRequest.mk "" "hi" "" "" "" None)
              (SendBulkMessageRequest.mk [] "" None) []) as [Hsingle Hbulk].
  split; [apply Hsingle | apply Hbulk]; reflexivity.
Defined.

(** C2: the error exchange of the test-suite, HTTP 400 with
    [{"message":"Invalid phone number","status_code":400}], through the
    single send.  The claim has [IsAPIError] true, [GetStatusCode] 400 and
    the rendering ["Invalid phone number"] on the error returned.  The code
    returns the typed error wrapped by [fmt.Errorf] with [%w], and the
    predicates assert the type without unwrapping: on the error returned
    [IsAPIError] is false, [GetStatusCode] is 0 and the rendering carries
    the prefix; the typed error the claim describes is what
    [errors.Unwrap] gives. *)
Lemma SendSingleMessage_error_not_typed :
  let returned :=
    snd (fst (SendSingleMessage (service (server 400 invalid_phone_body)) tt
                (Some single_request) [])) in
  IsAPIError returned = false /\
  GetStatusCode returned = Return 0 /\
  Error returned = Return "failed to send message: Invalid phone number" /\
  errors_Unwrap returned
    = APIErrorPtr (Some (mkAPIError "" "Invalid phone number" 400 "" None)).
Proof. vm_compute. repeat split; reflexivity. Qed.

(** * Further properties of the code *)

(** ** Accessors and [WrapError] *)

(** X1: [GetStatusCode], [GetErrorCode] and [IsErrorCode] read the fields of
    a typed error, the code compared exactly; on any error that is not
    itself a typed error, one wrapping a typed error included, they return
    0, the empty string and [false]. *)
Theorem accessors_do_not_unwrap (e : APIError) (other : error) (code : string) :
  IsAPIError other = false ->
  GetStatusCode (APIErrorPtr (Some e)) = Return (StatusCode e) /\
  GetErrorCode (APIErrorPtr (Some e)) = Return (Code e) /\
  returns_iff (IsErrorCode (APIErrorPtr (Some e)) code) (Code e = code) /\
  GetStatusCode other = Return 0 /\
  GetErrorCode other = Return "" /\
  IsErrorCode other code = Return false /\
  IsAPIError (fmt_Errorf_w code (APIErrorPtr (Some e))) = false.
Proof.
  intros Hother.
  split; [reflexivity |]. split; [reflexivity |].
  split.
  { exists (Code e =? code)%string. split; [reflexivity | apply string_eqb_iff]. }
  destruct other as [| s | msg inner | p]; simpl in Hother; try discriminate;
    repeat split; reflexivity.
Qed.

(** A typed 404 behind the wrapping of a convenience method. *)
Lemma accessors_do_not_unwrap_witness :
  GetStatusCode (fmt_Errorf_w "failed to get message status: " (APIErrorPtr (Some ErrNotFound)))
    = Return 0 /\
  GetErrorCode (fmt_Errorf_w "failed to get message status: " (APIErrorPtr (Some ErrNotFound)))
    = Return "".
Proof.
  destruct (accessors_do_not_unwrap ErrNotFound
              (fmt_Errorf_w "failed to get message status: " (APIErrorPtr (Some ErrNotFound)))
              "NOT_FOUND" eq_refl) as (_ & _ & _ & Hstatus & Hcode & _).
  split; [exact Hstatus | exact Hcode].
Defined.



(** X3: wrapping an error that is no typed error keeps its text as the
    rendering unless the text is empty, in which case the rendering is
    ["API error: status <s>"]; the wrapped error has no code, so its
    category is decided by the fallback status alone. *)
Theorem WrapError_plain (err : error) (text : string) (s : Z) :
  err <> error_nil -> IsAPIError err = false -> Error err = Return text ->
  exists e,
    WrapError err s = Return (Some e) /\
    StatusCode e = s /\ Code e = "" /\
    (text <> "" -> APIError_Error e = text) /\
    (text = "" -> APIError_Error e = "API error: status " ++ fmt_d s) /\
    returns_iff (IsNotFound (APIErrorPtr (Some e))) (s = 404) /\
    returns_iff (IsUnauthorized (APIErrorPtr (Some e))) (s = 401) /\
    returns_iff (IsRateLimited (APIErrorPtr (Some e))) (s = 429) /\
    returns_iff (IsInsufficientBalance (APIErrorPtr (Some e))) (s = 402) /\
    returns_iff (IsBadRequest (APIErrorPtr (Some e))) (s = 400).
Proof.
  intros Hnil Hkind Htext.
  exists (mkAPIError "" text s "" None).
  split.
  { destruct err as [| t | msg inner | p]; simpl in Hkind, Htext.
    - congruence.
    - inversion Htext. reflexivity.
    - inversion Htext. reflexivity.
    - discriminate. }
  split; [reflexivity |]. split; [reflexivity |].
  split.
  { intros Hne. unfold APIError_Error. simpl.
    apply nonempty_true in Hne. now rewrite Hne. }
  split.
  { intros ->. reflexivity. }
  unfold IsNotFound, IsUnauthorized, IsRateLimited, IsInsufficientBalance,
    IsBadRequest, returns_iff; simpl.
  repeat split; eexists; (split; [reflexivity |]);
    rewrite ?orb_false_r; simpl; apply Z.eqb_eq.
Qed.

(** [errors.New] with an empty text, wrapped under 404. *)
Lemma WrapError_plain_witness :
  exists e,
    WrapError (errorString "") 404 = Return (Some e) /\
    APIError_Error e = "API error: status 404" /\
    returns_iff (IsNotFound (APIErrorPtr (Some e))) (404 = 404).
Proof.
  destruct (WrapError_plain (errorString "") "" 404) as
    (e & Hrun & _ & _ & _ & Hempty & Hnf & _);
    [discriminate | reflexivity | reflexivity |].
  exists e. split; [exact Hrun |]. split; [apply Hempty; reflexivity | exact Hnf].
Defined.

(** ** Requests and responses *)

Section PipelineFurther.

Context {Context : Type} {net : NetLib Context} {UE : Unmarshaler APIError}.

Lemma skipn_own_length {A : Type} (xs ys : list A) :
  skipn (length xs) (xs ++ ys) = ys.
Proof. induction xs as [| x xs IH]; simpl; [reflexivity | exact IH]. Qed.

Lemma is_nil_true (err : error) : is_nil err = true <-> err = error_nil.
Proof. destruct err; simpl; split; congruence. Qed.

Lemma is_nil_false (err : error) : is_nil err = false <-> err <> error_nil.
Proof. destruct err; simpl; split; congruence. Qed.

Lemma IsAPIError_wrap (prefix : string) (cause : error) :
  IsAPIError (fmt_Errorf_w prefix cause) = false.
Proof. reflexivity. Qed.

(** X4: when reading the body fails, whatever the status, the call returns
    the read error wrapped as ["failed to read response body: ..."], leaves
    the result container as it was and decodes nothing. *)
Theorem parseResponse_read_failure {V : Type} {UV : Unmarshaler V}
    (c : Client Context) (resp : Response.t) (data : string) (cause : error)
    (v : option V) (tr : trace) :
  Response.Body resp = (data, cause) ->
  cause <> error_nil ->
  parseResponse c resp v tr
    = ((v, wrapError ("failed to read response body: " ++ fmt_w_operand cause) cause), tr) /\
  errors_Unwrap (snd (fst (parseResponse c resp v tr))) = cause.
Proof.
  intros Hbody Hcause.
  unfold parseResponse, io_ReadAll. rewrite Hbody.
  apply is_nil_false in Hcause. rewrite Hcause. split; reflexivity.
Qed.

(** X5: [parseResponse] returns a typed error exactly when the body was
    read and the status is outside [200,300). *)
Theorem parseResponse_typed_iff {V : Type} {UV : Unmarshaler V}
    (c : Client Context) (resp : Response.t) (v : option V) (tr : trace) :
  IsAPIError (snd (fst (parseResponse c resp v tr))) = true <->
  snd (Response.Body resp) = error_nil /\
  (Response.StatusCode resp < 200 \/ 300 <= Response.StatusCode resp).
Proof.
  destruct (Response.Body resp) as [data cause] eqn:Hbody. simpl.
  destruct (is_nil cause) eqn:Hnil.
  - apply is_nil_true in Hnil. subst cause.
    destruct (Z_lt_ge_dec (Response.StatusCode resp) 200) as [Hlo | Hlo];
      [| destruct (Z_lt_ge_dec (Response.StatusCode resp) 300) as [Hhi | Hhi]].
    + rewrite (parseResponse_outside c resp data v tr Hbody (or_introl Hlo)).
      simpl. tauto.
    + assert (Hin : 200 <= Response.StatusCode resp < 300) by lia.
      unfold parseResponse, io_ReadAll. rewrite Hbody. simpl.
      rewrite (status_inside _ Hin).
      destruct v as [dst |]; simpl.
      * unfold unmarshal, bind, emit, ret.
        destruct (json_Unmarshal data dst) as [dst' err].
        destruct (is_nil err); simpl; split; try discriminate; intros [_ H]; lia.
      * split; try discriminate; intros [_ H]; lia.
    + assert (Hout : Response.StatusCode resp < 200 \/ 300 <= Response.StatusCode resp)
        by lia.
      rewrite (parseResponse_outside c resp data v tr Hbody Hout).
      simpl. tauto.
  - unfold parseResponse, io_ReadAll. rewrite Hbody, Hnil. simpl.
    apply is_nil_false in Hnil. split; [discriminate | tauto].
Qed.

(** What the table gives back tells the status. *)
Lemma getErrorCodeFromStatusCode_inv (s : Z) :
  (getErrorCodeFromStatusCode s = "NOT_FOUND" <-> s = 404) /\
  (getErrorCodeFromStatusCode s = "INVALID_CREDENTIALS" <-> s = 401) /\
  (getErrorCodeFromStatusCode s = "RATE_LIMIT_EXCEEDED" <-> s = 429) /\
  (getErrorCodeFromStatusCode s = "INSUFFICIENT_BALANCE" <-> s = 402) /\
  (getErrorCodeFromStatusCode s = "BAD_REQUEST" <-> s = 400).
Proof.
  unfold getErrorCodeFromStatusCode, StatusBadRequest, StatusUnauthorized,
    StatusForbidden, StatusNotFound, StatusPaymentRequired, StatusTooManyRequests,
    StatusInternalServerError, StatusServiceUnavailable.
  repeat match goal with
         | |- context [ (s =? ?k) ] =>
             destruct (Z.eqb_spec s k);
             [subst s; repeat split; intros; first [reflexivity | discriminate | lia] |]
         end.
  repeat split; intros; first [discriminate | lia].
Qed.

(** X6: a typed error that comes out of [parseResponse] always has a
    message, a code or an alternate text, so it never renders through the
    bare-status branch of [Error()] by lack of them; and its status code is
    not zero unless the response's is. *)
Theorem parseResponse_typed_error_filled {V : Type} {UV : Unmarshaler V}
    (c : Client Context) (resp : Response.t) (body : string) (v : option V) (tr : trace) :
  Response.Body resp = (body, error_nil) ->
  Response.StatusCode resp < 200 \/ 300 <= Response.StatusCode resp ->
  exists e,
    snd (fst (parseResponse c resp v tr)) = APIErrorPtr (Some e) /\
    (Message e <> "" \/ Code e <> "" \/ ErrorMsg e <> "") /\
    (Response.StatusCode resp <> 0 -> StatusCode e <> 0).
Proof.
  intros Hbody Hstatus.
  rewrite (parseResponse_outside c resp body v tr Hbody Hstatus).
  eexists. split; [reflexivity |].
  unfold parseErrorResponse, unmarshal, bind, emit, ret.
  destruct (json_Unmarshal body APIError_zero) as [parsed err].
  cbn [is_nil fst snd].
  fold (backfilled (Response.StatusCode resp) parsed).
  destruct (backfilled_fields (Response.StatusCode resp) parsed) as (Hc & Hm & He & Hs).
  destruct (is_nil err);
    [destruct (nonempty (Message _) || nonempty (Code _) || nonempty (ErrorMsg _)) eqn:Htext |];
    cbn [fst].
  - rewrite !orb_true_iff, !nonempty_true in Htext. split; [tauto |].
    rewrite Hs. destruct (Z.eqb_spec (StatusCode parsed) 0); congruence.
  - split; [left; discriminate | trivial].
  - split; [left; discriminate | trivial].
Qed.

(** X7: when the error body does not parse, or parses with no message, code
    or alternate text, the category of the error returned is the category of
    the HTTP status: the code taken from the table triggers no other one. *)
Theorem synthesized_error_category {V : Type} {UV : Unmarshaler V}
    (c : Client Context) (resp : Response.t) (body : string) (v : option V) (tr : trace) :
  Response.Body resp = (body, error_nil) ->
  Response.StatusCode resp < 200 \/ 300 <= Response.StatusCode resp ->
  snd (json_Unmarshal body APIError_zero) <> error_nil \/
  (Message (fst (json_Unmarshal body APIError_zero)) = "" /\
   Code (fst (json_Unmarshal body APIError_zero)) = "" /\
   ErrorMsg (fst (json_Unmarshal body APIError_zero)) = "") ->
  let returned := snd (fst (parseResponse c resp v tr)) in
  let status := Response.StatusCode resp in
  GetStatusCode returned = Return status /\
  returns_iff (IsNotFound returned) (status = 404) /\
  returns_iff (IsUnauthorized returned) (status = 401) /\
  returns_iff (IsRateLimited returned) (status = 429) /\
  returns_iff (IsInsufficientBalance returned) (status = 402) /\
  returns_iff (IsBadRequest returned) (status = 400).
Proof.
  intros Hbody Hstatus Hsynth returned status. subst returned.
  rewrite (parseResponse_outside c resp body v tr Hbody Hstatus).
  cbn [fst snd].
  assert (Hvalue : fst (parseErrorResponse status body [])
                   = NewAPIError (getErrorCodeFromStatusCode status)
                       ("API error: status " ++ fmt_d status ++ ", body: " ++ body)
                       status).
  { unfold parseErrorResponse, unmarshal, bind, emit, ret.
    destruct (json_Unmarshal body APIError_zero) as [parsed err].
    cbn [fst snd] in Hsynth. cbn [is_nil fst snd].
    destruct Hsynth as [Herr | (Hm & Hc & He)].
    - apply is_nil_false in Herr. now rewrite Herr.
    - destruct (is_nil err); [| reflexivity].
      fold (backfilled status parsed).
      destruct (backfilled_fields status parsed) as (Hc' & Hm' & He' & _).
      rewrite Hm', Hc', He', Hm, Hc, He. reflexivity. }
  fold status. rewrite Hvalue.
  destruct (getErrorCodeFromStatusCode_inv status) as (Hnf & Hun & Hrl & Hib & Hbr).
  split; [reflexivity |].
  unfold IsNotFound, IsUnauthorized, IsRateLimited, IsInsufficientBalance, IsBadRequest,
    returns_iff, NewAPIError; simpl.
  repeat split; eexists; (split; [reflexivity |]);
    rewrite orb_true_iff, Z.eqb_eq, String.eqb_eq;
    unfold StatusNotFound, StatusUnauthorized, StatusTooManyRequests,
      StatusPaymentRequired, StatusBadRequest, ErrCodeNotFound, ErrCodeInvalidCredentials,
      ErrCodeRateLimitExceeded, ErrCodeInsufficientBalance, ErrCodeBadRequest;
    tauto.
Qed.

End PipelineFurther.

Section RequestFurther.

Context {Context : Type} {net : NetLib Context} {UE : Unmarshaler APIError}.

(** The two ways [doRequest] ends: before a request exists, with one of
    three wrapped errors and no trace; or after the one request it built
    was handed to the transport. *)
Lemma doRequest_run {B : Type} {MB : Marshaler B}
    (c : Client Context) (ctx : Context) (method endpoint : string)
    (body : option B) (queryParams : list (string * string)) (tr : trace) :
  (exists prefix cause,
     In prefix ["invalid URL: "; "failed to marshal request body: ";
                "failed to create request: "] /\
     doRequest c ctx method endpoint body queryParams tr
       = (inr (fmt_Errorf_w prefix cause), tr)) \/
  (exists url reqBody,
     match queryParams with
     | [] => url = baseURL c ++ endpoint
     | _ :: _ => url_with_query (baseURL c ++ endpoint) queryParams = inl url
     end /\
     match body with
     | None => reqBody = None
     | Some b => exists data, json_Marshal b = inl data /\ reqBody = Some data
     end /\
     let req :=
       Request.Header_Set "X-API-Secret" (apiSecret c)
         (Request.Header_Set "X-API-Key" (apiKey c)
            (Request.Header_Set "Accept" "application/json"
               (Request.Header_Set "Content-Type" "application/json"
                  (Request.mk method url [] reqBody)))) in
     doRequest c ctx method endpoint body queryParams tr
       = (match httpClient c ctx req with
          | inl resp => inl resp
          | inr cause => inr (fmt_Errorf_w "request failed: " cause)
          end,
          (tr ++ [EvNewRequest (Request.mk method url [] reqBody); EvDo req])%list)).
Proof.
  unfold doRequest.
  assert (Hurl : (exists cause,
                    match queryParams with
                    | [] => inl (baseURL c ++ endpoint)
                    | _ :: _ => url_with_query (baseURL c ++ endpoint) queryParams
                    end = inr cause) \/
                 (exists url,
                    match queryParams with
                    | [] => inl (baseURL c ++ endpoint)
                    | _ :: _ => url_with_query (baseURL c ++ endpoint) queryParams
                    end = inl url /\
                    match queryParams with
                    | [] => url = baseURL c ++ endpoint
                    | _ :: _ => url_with_query (baseURL c ++ endpoint) queryParams = inl url
                    end)).
  { destruct queryParams as [| kv rest].
    - right. now exists (baseURL c ++ endpoint).
    - destruct (url_with_query (baseURL c ++ endpoint) (kv :: rest)) as [url | cause].
      + right. now exists url.
      + left. now exists cause. }
  destruct Hurl as [[cause Hq] | (url & Hq & Hurl)]; rewrite Hq.
  { left. exists "invalid URL: ", cause. split; [simpl; tauto | reflexivity]. }
  assert (Hbody : (exists cause,
                     match body with
                     | Some b => match json_Marshal b with
                                 | inl jsonData => inl (Some jsonData)
                                 | inr err => inr err
                                 end
                     | None => inl None
                     end = inr cause) \/
                  (exists reqBody,
                     match body with
                     | Some b => match json_Marshal b with
                                 | inl jsonData => inl (Some jsonData)
                                 | inr err => inr err
                                 end
                     | None => inl None
                     end = inl reqBody /\
                     match body with
                     | None => reqBody = None
                     | Some b => exists data, json_Marshal b = inl data /\ reqBody = Some data
                     end)).
  { destruct body as [b |].
    - destruct (json_Marshal b) as [data | cause].
      + right. exists (Some data). split; [reflexivity | now exists data].
      + left. now exists cause.
    - right. now exists None. }
  destruct Hbody as [[cause Hb] | (reqBody & Hb & Hbody)]; rewrite Hb.
  { left. exists "failed to marshal request body: ", cause.
    split; [simpl; tauto | reflexivity]. }
  destruct (is_nil (http_NewRequest_error ctx method url)) eqn:Hnew; cbn [negb].
  - right. exists url, reqBody. split; [exact Hurl |]. split; [exact Hbody |].
    unfold bind, emit, ret. cbn zeta.
    rewrite <- app_assoc. cbn [app].
    now destruct (httpClient c ctx _).
  - left. exists "failed to create request: ", (http_NewRequest_error ctx method url).
    split; [simpl; tauto | reflexivity].
Qed.

Lemma doRequest_grows {B : Type} {MB : Marshaler B}
    (c : Client Context) (ctx : Context) (method endpoint : string)
    (body : option B) (queryParams : list (string * string)) (tr : trace) :
  exists evs, snd (doRequest c ctx method endpoint body queryParams tr) = (tr ++ evs)%list.
Proof.
  destruct (doRequest_run c ctx method endpoint body queryParams tr)
    as [(prefix & cause & _ & Hrun) | (url & reqBody & _ & _ & Hrun)].
  - exists []. rewrite Hrun. cbn [snd]. now rewrite app_nil_r.
  - eexists. cbn zeta in Hrun. rewrite Hrun. reflexivity.
Qed.

(** X8: [doRequest] only ever appends to the trace, and what it appends is
    nothing, when it fails before a request exists (the error is then one of
    three wrapped errors), or exactly one request built and sent; the error
    of the transport comes back wrapped as ["request failed: ..."].  No
    error it returns is a typed error. *)
Theorem doRequest_outcome {B : Type} {MB : Marshaler B}
    (c : Client Context) (ctx : Context) (method endpoint : string)
    (body : option B) (queryParams : list (string * string)) (tr : trace) :
  let call := doRequest c ctx method endpoint body queryParams in
  snd (call tr) = (tr ++ events_of call tr)%list /\
  (forall err, fst (call tr) = inr err -> IsAPIError err = false) /\
  ((events_of call tr = [] /\
    exists prefix cause,
      In prefix ["invalid URL: "; "failed to marshal request body: ";
                 "failed to create request: "] /\
      fst (call tr) = inr (fmt_Errorf_w prefix cause)) \/
   (exists req,
      events_of call tr = [EvNewRequest (without_headers req); EvDo req] /\
      fst (call tr) = match httpClient c ctx req with
                      | inl resp => inl resp
                      | inr cause => inr (fmt_Errorf_w "request failed: " cause)
                      end)).
Proof.
  intros call. subst call. unfold events_of.
  destruct (doRequest_run c ctx method endpoint body queryParams tr)
    as [(prefix & cause & Hin & Hrun) | (url & reqBody & _ & _ & Hrun)].
  - rewrite Hrun. cbn [fst snd].
    rewrite skipn_all, app_nil_r.
    split; [reflexivity |].
    split; [intros err Herr; inversion Herr; reflexivity |].
    left. split; [reflexivity |]. now exists prefix, cause.
  - cbn zeta in Hrun.
    set (req := Request.Header_Set "X-API-Secret" _ _) in Hrun.
    rewrite Hrun. cbn [fst snd].
    rewrite skipn_own_length.
    split; [reflexivity |].
    split.
    { intros err Herr. destruct (httpClient c ctx req); inversion Herr. reflexivity. }
    right. exists req. split; reflexivity.
Qed.

(** X9: the request [doRequest] sends has the method asked for; its URL is
    the base URL and the endpoint put together as they are when there are no
    query parameters, and what [net/url] makes of them otherwise; its body is
    the marshalled body, or none; and it carries four headers: the two JSON
    content headers and the two credentials as the client holds them. *)
Theorem doRequest_request {B : Type} {MB : Marshaler B}
    (c : Client Context) (ctx : Context) (method endpoint : string)
    (body : option B) (queryParams : list (string * string)) (tr : trace)
    (req : Request.t) :
  In (EvDo req) (events_of (doRequest c ctx method endpoint body queryParams) tr) ->
  Request.Method req = method /\
  (queryParams = [] -> Request.URL req = baseURL c ++ endpoint) /\
  (queryParams <> [] ->
   url_with_query (baseURL c ++ endpoint) queryParams = inl (Request.URL req)) /\
  (body = None -> Request.Body req = None) /\
  (forall b, body = Some b -> exists data,
     json_Marshal b = inl data /\ Request.Body req = Some data) /\
  Header_Get "Content-Type" req = "application/json" /\
  Header_Get "Accept" req = "application/json" /\
  Header_Get "X-API-Key" req = apiKey c /\
  Header_Get "X-API-Secret" req = apiSecret c /\
  length (Request.Header req) = 4%nat.
Proof.
  unfold events_of.
  destruct (doRequest_run c ctx method endpoint body queryParams tr)
    as [(prefix & cause & _ & Hrun) | (url & reqBody & Hurl & Hbody & Hrun)].
  - rewrite Hrun. cbn [snd].
    rewrite skipn_all.
    intros [].
  - cbn zeta in Hrun. rewrite Hrun. cbn [snd]. rewrite skipn_own_length.
    intros [Hin | [Hin | []]]; [discriminate Hin |].
    inversion Hin; subst req; clear Hin.
    split; [reflexivity |].
    split; [intros ->; exact Hurl |].
    split; [destruct queryParams; [congruence | intros _; exact Hurl] |].
    split; [intros ->; exact Hbody |].
    split; [intros b ->; exact Hbody |].
    repeat split; reflexivity.
Qed.

(** [parseResponse] adds at most one decoding to the trace, and keeps a
    container a container. *)
Lemma parseResponse_run {V : Type} {UV : Unmarshaler V}
    (c : Client Context) (resp : Response.t) (v : option V) (tr : trace) :
  exists evs,
    snd (parseResponse c resp v tr) = (tr ++ evs)%list /\
    sent_requests evs = [] /\
    (v <> None -> fst (fst (parseResponse c resp v tr)) <> None).
Proof.
  unfold parseResponse, io_ReadAll.
  destruct (Response.Body resp) as [data cause].
  destruct (is_nil cause); cbn [negb].
  - destruct ((Response.StatusCode resp <? 200) || (Response.StatusCode resp >=? 300)).
    + unfold bind, ret.
      pose proof (parseErrorResponse_trace (Response.StatusCode resp) data tr) as Htrace.
      destruct (parseErrorResponse (Response.StatusCode resp) data tr) as [e tr'].
      cbn [fst snd] in *. exists [EvUnmarshal data]. now rewrite Htrace.
    + destruct v as [dst |].
      * unfold unmarshal, bind, emit, ret.
        destruct (json_Unmarshal data dst) as [dst' err].
        exists [EvUnmarshal data].
        destruct (is_nil err); cbn [negb fst snd]; repeat split; discriminate.
      * exists []. cbn [fst snd]. rewrite app_nil_r. repeat split. congruence.
  - exists []. cbn [ret fst snd]. rewrite app_nil_r. repeat split. trivial.
Qed.

(** [m] followed by [k], when [k] only appends to the trace. *)
Lemma sent_requests_app (xs ys : trace) :
  sent_requests (xs ++ ys)%list = (sent_requests xs ++ sent_requests ys)%list.
Proof.
  induction xs as [| [r | r | d] xs IH]; simpl; [reflexivity | exact IH | | exact IH].
  now rewrite IH.
Qed.

(** A verb sends what its [doRequest] sends, keeps a container a container,
    and without a response returns the error of [doRequest]. *)
Lemma verb_run {B V : Type} {MB : Marshaler B} {UV : Unmarshaler V}
    (c : Client Context) (ctx : Context) (method endpoint : string) (body : option B)
    (queryParams : list (string * string)) (result : option V) (tr : trace) :
  let request := doRequest c ctx method endpoint body queryParams in
  let call :=
    (r <- request ;;
     match r with
     | inr err => ret (result, err)
     | inl resp => parseResponse c resp result
     end) in
  snd (call tr) = (tr ++ events_of call tr)%list /\
  sent_requests (events_of call tr) = sent_requests (events_of request tr) /\
  (result <> None -> fst (fst (call tr)) <> None) /\
  (forall err, fst (request tr) = inr err ->
     call tr = ((result, err), snd (request tr))).
Proof.
  intros request call. subst call. unfold bind, events_of.
  destruct (doRequest_grows c ctx method endpoint body queryParams tr) as [evs0 Hgrow].
  fold request in Hgrow.
  destruct (request tr) as [[resp | err] tr'] eqn:Hreq; cbn [fst snd] in *; subst tr'.
  - destruct (parseResponse_run c resp result (tr ++ evs0)%list)
      as (evs & Htrace & Hsent & Hkeep).
    rewrite Htrace, <- app_assoc, !skipn_own_length.
    split; [reflexivity |].
    split; [rewrite sent_requests_app, Hsent; apply app_nil_r |].
    split; [exact Hkeep | discriminate].
  - cbn [ret snd fst]. rewrite skipn_own_length.
    split; [reflexivity |].
    split; [reflexivity |].
    split; [intros Hkeep; exact Hkeep |].
    intros err' Herr. inversion Herr. reflexivity.
Qed.

Lemma doRequest_error_kind {B : Type} {MB : Marshaler B}
    (c : Client Context) (ctx : Context) (method endpoint : string)
    (body : option B) (queryParams : list (string * string)) (tr : trace) (err : error) :
  fst (doRequest c ctx method endpoint body queryParams tr) = inr err ->
  IsAPIError err = false.
Proof.
  destruct (doRequest_run c ctx method endpoint body queryParams tr)
    as [(prefix & cause & _ & Hrun) | (url & reqBody & _ & _ & Hrun)].
  - rewrite Hrun. intros Herr. inversion Herr. reflexivity.
  - cbn zeta in Hrun. rewrite Hrun. cbn [fst].
    destruct (httpClient c ctx _); intros Herr; inversion Herr. reflexivity.
Qed.

(** What [doRequest] sends: nothing, or one request of the client. *)
Lemma doRequest_sent {B : Type} {MB : Marshaler B}
    (c : Client Context) (ctx : Context) (method endpoint : string)
    (body : option B) (queryParams : list (string * string)) (tr : trace) :
  sent_requests (events_of (doRequest c ctx method endpoint body queryParams) tr) = [] \/
  exists url reqBody sent,
    sent_requests (events_of (doRequest c ctx method endpoint body queryParams) tr)
      = [sent] /\
    match queryParams with
    | [] => url = baseURL c ++ endpoint
    | _ :: _ => url_with_query (baseURL c ++ endpoint) queryParams = inl url
    end /\
    match body with
    | None => reqBody = None
    | Some b => exists data, json_Marshal b = inl data /\ reqBody = Some data
    end /\
    carries c method url reqBody sent.
Proof.
  unfold events_of.
  destruct (doRequest_run c ctx method endpoint body queryParams tr)
    as [(prefix & cause & _ & Hrun) | (url & reqBody & Hurl & Hbody & Hrun)].
  - left. rewrite Hrun. cbn [snd]. now rewrite skipn_all.
  - right. cbn zeta in Hrun. rewrite Hrun. cbn [snd]. rewrite skipn_own_length.
    exists url, reqBody. eexists. split; [reflexivity |].
    split; [exact Hurl |]. split; [exact Hbody |].
    repeat split; reflexivity.
Qed.

(** X10: when [doRequest] gets no response, each verb returns its error,
    which is no typed error, leaves the result container as it was and
    decodes nothing. *)
Theorem verbs_without_response {B V : Type} {MB : Marshaler B} {UV : Unmarshaler V}
    (c : Client Context) (ctx : Context) (endpoint : string) (body : option B)
    (queryParams : list (string * string)) (result : option V)
    (err : error) (tr tr' : trace) :
  (doRequest c ctx MethodGet endpoint (@None no_body) queryParams tr = (inr err, tr') ->
   Get c ctx endpoint result queryParams tr = ((result, err), tr') /\
   IsAPIError err = false) /\
  (doRequest c ctx MethodPost endpoint body [] tr = (inr err, tr') ->
   Post c ctx endpoint body result tr = ((result, err), tr') /\
   IsAPIError err = false) /\
  (doRequest c ctx MethodPut endpoint body [] tr = (inr err, tr') ->
   Put c ctx endpoint body result tr = ((result, err), tr') /\
   IsAPIError err = false) /\
  (doRequest c ctx MethodDelete endpoint (@None no_body) [] tr = (inr err, tr') ->
   Delete c ctx endpoint result tr = ((result, err), tr') /\
   IsAPIError err = false).
Proof.
  assert (Hkind : forall (B' : Type) (MB' : Marshaler B') method (b : option B') q,
            doRequest c ctx method endpoint b q tr = (inr err, tr') ->
            IsAPIError err = false).
  { intros B' MB' method b q Hreq.
    apply (doRequest_error_kind c ctx method endpoint b q tr). now rewrite Hreq. }
  split; [| split; [| split]]; intros Hreq;
    (split; [unfold Get, Post, Put, Delete, bind; now rewrite Hreq
            | exact (Hkind _ _ _ _ _ Hreq)]).
Qed.

End RequestFurther.

(** ** The message service, method by method *)

Section ServiceFurther.

Context {Context : Type} {net : NetLib Context} {UE : Unmarshaler APIError}.
Context {time : TimeLib}.
Context {MSingle : Marshaler SendMessageRequest.t}
        {USingle : Unmarshaler SendMessageResponse.t}.
Context {MBulk : Marshaler SendBulkMessageRequest.t}
        {UBulk : Unmarshaler SendBulkMessageResponse.t}.
Context {MTemplate : Marshaler SendTemplateMessageRequest.t}
        {MVoice : Marshaler SendVoiceMessageRequest.t}.
Context {UList : Unmarshaler ListMessagesResponse.t}
        {UStatus : Unmarshaler MessageStatus.t}
        {UUser : Unmarshaler UserInfo.t}.

(** X11: the single send refuses a nil request, and a request with a
    recipient but no message text; the bulk send refuses a nil request.
    Each returns a local error and adds nothing to the trace. *)
Theorem SendSingleMessage_validation (s : MessagesService Context) (ctx : Context)
    (req : SendMessageRequest.t) (tr : trace) :
  SendSingleMessage s ctx None tr
    = ((None, errorString "request cannot be nil"), tr) /\
  (SendMessageRequest.To req <> "" -> SendMessageRequest.Message req = "" ->
   SendSingleMessage s ctx (Some req) tr
     = ((None, errorString "message text is required"), tr)) /\
  SendBulkMessages s ctx None tr
    = ((None, errorString "request cannot be nil"), tr).
Proof.
  split; [reflexivity |]. split; [| reflexivity].
  intros Hto Hmsg. unfold SendSingleMessage.
  apply String.eqb_neq in Hto. now rewrite Hto, Hmsg.
Qed.

(** X12: the template send refuses a nil request, an empty recipient, and
    an empty template identifier, in that order, before anything is sent;
    the template parameters are not looked at. *)
Theorem SendTemplateMessage_validation (s : MessagesService Context) (ctx : Context)
    (req : SendTemplateMessageRequest.t) (tr : trace) :
  SendTemplateMessage s ctx None tr
    = ((None, errorString "request cannot be nil"), tr) /\
  (SendTemplateMessageRequest.To req = "" ->
   SendTemplateMessage s ctx (Some req) tr
     = ((None, errorString "recipient phone number is required"), tr)) /\
  (SendTemplateMessageRequest.To req <> "" ->
   SendTemplateMessageRequest.TemplateID req = "" ->
   SendTemplateMessage s ctx (Some req) tr
     = ((None, errorString "template ID is required"), tr)).
Proof.
  split; [reflexivity |]. split.
  - intros Hto. unfold SendTemplateMessage. now rewrite Hto.
  - intros Hto Hid. unfold SendTemplateMessage.
    apply String.eqb_neq in Hto. now rewrite Hto, Hid.
Qed.

(** X13: the voice send refuses a nil request, an empty recipient, and a
    request with neither message text nor audio URL; [SendVoice], which has
    no audio URL to pass, refuses an empty message whatever the voice type
    and language. *)
Theorem SendVoiceMessage_validation (s : MessagesService Context) (ctx : Context)
    (req : SendVoiceMessageRequest.t) (to voiceType language : string) (tr : trace) :
  SendVoiceMessage s ctx None tr
    = ((None, errorString "request cannot be nil"), tr) /\
  (SendVoiceMessageRequest.To req = "" ->
   SendVoiceMessage s ctx (Some req) tr
     = ((None, errorString "recipient phone number is required"), tr)) /\
  (SendVoiceMessageRequest.To req <> "" ->
   SendVoiceMessageRequest.Message req = "" ->
   SendVoiceMessageRequest.AudioURL req = "" ->
   SendVoiceMessage s ctx (Some req) tr
     = ((None, errorString "either message text or audio URL is required"), tr)) /\
  (to <> "" ->
   SendVoice s ctx to "" voiceType language tr
     = ((None, errorString "either message text or audio URL is required"), tr)).
Proof.
  split; [reflexivity |]. split; [| split].
  - intros Hto. unfold SendVoiceMessage. now rewrite Hto.
  - intros Hto Hmsg Hurl. unfold SendVoiceMessage.
    apply String.eqb_neq in Hto. now rewrite Hto, Hmsg, Hurl.
  - intros Hto. unfold SendVoice, SendVoiceMessage. cbn.
    apply String.eqb_neq in Hto. now rewrite Hto.
Qed.

(** The tail every method of the service shares: the error of the pipeline
    wrapped under the method's prefix and the response dropped, or the
    response passed on. *)
Lemma service_call_run {V : Type} (m : M (option V * error)) (prefix : string)
    (tr : trace) :
  let call :=
    ('(response, err) <- m ;;
     if negb (is_nil err) then ret (None, fmt_Errorf_w prefix err)
     else ret (response, error_nil)) in
  snd (call tr) = snd (m tr) /\
  events_of call tr = events_of m tr /\
  ((snd (fst (m tr)) = error_nil /\ fst (call tr) = (fst (fst (m tr)), error_nil)) \/
   (snd (fst (m tr)) <> error_nil /\
    fst (call tr) = (None, fmt_Errorf_w prefix (snd (fst (m tr)))))).
Proof.
  intros call. subst call. unfold bind, events_of.
  destruct (m tr) as [[response err] tr']. cbn [fst snd].
  destruct (is_nil err) eqn:Hnil; cbn [negb ret fst snd].
  - apply is_nil_true in Hnil. subst err. repeat split. left. now split.
  - apply is_nil_false in Hnil. repeat split. right. now split.
Qed.

Lemma service_call_result {V : Type} (m : M (option V * error)) (prefix : string)
    (tr : trace) :
  fst (fst (m tr)) <> None ->
  service_result
    (fst (('(response, err) <- m ;;
           if negb (is_nil err) then ret (None, fmt_Errorf_w prefix err)
           else ret (response, error_nil)) tr)).
Proof.
  intros Hkeep.
  destruct (service_call_run m prefix tr) as (_ & _ & [[Hnil Hrun] | [Herr Hrun]]);
    cbn zeta in Hrun; rewrite Hrun; unfold service_result; cbn [fst snd].
  - split; [reflexivity |]. tauto.
  - split; [reflexivity |]. split; [discriminate | congruence].
Qed.

Lemma local_error_result {V : Type} (text : string) :
  service_result (@None V, fmt_Errorf text).
Proof.
  unfold service_result. cbn. split; [reflexivity |]. split; [discriminate | congruence].
Qed.

Lemma Post_keeps {B V : Type} {MB : Marshaler B} {UV : Unmarshaler V}
    (c : Client Context) (ctx : Context) (endpoint : string) (body : option B)
    (dst : V) (tr : trace) :
  fst (fst (Post c ctx endpoint body (Some dst) tr)) <> None.
Proof.
  destruct (verb_run c ctx MethodPost endpoint body [] (Some dst) tr) as (_ & _ & Hkeep & _).
  apply Hkeep. discriminate.
Qed.

Lemma Get_keeps {V : Type} {UV : Unmarshaler V}
    (c : Client Context) (ctx : Context) (endpoint : string)
    (queryParams : list (string * string)) (dst : V) (tr : trace) :
  fst (fst (Get c ctx endpoint (Some dst) queryParams tr)) <> None.
Proof.
  destruct (verb_run c ctx MethodGet endpoint (@None no_body) queryParams (Some dst) tr)
    as (_ & _ & Hkeep & _).
  apply Hkeep. discriminate.
Qed.

(** X14: whatever the input and whatever the server does, each of the seven
    methods of the service returns an error that is not itself a typed
    error (the typed error of the pipeline is always behind the method's
    wrapping), and returns a response exactly when it returns no error. *)
Theorem message_service_results (s : MessagesService Context) (ctx : Context)
    (single : option SendMessageRequest.t) (bulk : option SendBulkMessageRequest.t)
    (template : option SendTemplateMessageRequest.t)
    (voice : option SendVoiceMessageRequest.t)
    (params : option PaginationParams.t) (messageID : string) (tr : trace) :
  service_result (fst (SendSingleMessage s ctx single tr)) /\
  service_result (fst (SendBulkMessages s ctx bulk tr)) /\
  service_result (fst (SendTemplateMessage s ctx template tr)) /\
  service_result (fst (SendVoiceMessage s ctx voice tr)) /\
  service_result (fst (ListMessages s ctx params tr)) /\
  service_result (fst (GetMessageStatus s ctx messageID tr)) /\
  service_result (fst (GetUserInfo s ctx tr)).
Proof.
  refine (conj _ (conj _ (conj _ (conj _ (conj _ (conj _ _)))))).
  - unfold SendSingleMessage. destruct single as [r |]; [| apply local_error_result].
    destruct (SendMessageRequest.To r =? "")%string; [apply local_error_result |].
    destruct (SendMessageRequest.Message r =? "")%string; [apply local_error_result |].
    apply service_call_result, Post_keeps.
  - unfold SendBulkMessages. destruct bulk as [r |]; [| apply local_error_result].
    destruct (Z.of_nat (length (SendBulkMessageRequest.Messages r)) =? 0);
      [apply local_error_result |].
    apply service_call_result, Post_keeps.
  - unfold SendTemplateMessage. destruct template as [r |]; [| apply local_error_result].
    destruct (SendTemplateMessageRequest.To r =? "")%string; [apply local_error_result |].
    destruct (SendTemplateMessageRequest.TemplateID r =? "")%string;
      [apply local_error_result |].
    apply service_call_result, Post_keeps.
  - unfold SendVoiceMessage. destruct voice as [r |]; [| apply local_error_result].
    destruct (SendVoiceMessageRequest.To r =? "")%string; [apply local_error_result |].
    destruct ((SendVoiceMessageRequest.Message r =? "")%string
              && (SendVoiceMessageRequest.AudioURL r =? "")%string);
      [apply local_error_result |].
    apply service_call_result, Post_keeps.
  - unfold ListMessages. apply service_call_result, Get_keeps.
  - unfold GetMessageStatus.
    destruct (messageID =? "")%string; [apply local_error_result |].
    apply service_call_result, Get_keeps.
  - unfold GetUserInfo. apply service_call_result, Get_keeps.
Qed.

Lemma ret_sends_nothing {A : Type} (a : A) (tr : trace) :
  sent_requests (events_of (ret a) tr) = [].
Proof. unfold events_of, ret. cbn [snd]. now rewrite skipn_all. Qed.

(** What a method built on [Post] sends. *)
Lemma post_call_sent {B V : Type} {MB : Marshaler B} {UV : Unmarshaler V}
    (c : Client Context) (ctx : Context) (endpoint prefix : string) (b : B) (dst : V)
    (tr : trace) :
  let call :=
    ('(response, err) <- Post c ctx endpoint (Some b) (Some dst) ;;
     if negb (is_nil err) then ret (None, fmt_Errorf_w prefix err)
     else ret (response, error_nil)) in
  (length (sent_requests (events_of call tr)) <= 1)%nat /\
  forall sent, In sent (sent_requests (events_of call tr)) ->
    exists data,
      json_Marshal b = inl data /\
      carries c MethodPost (baseURL c ++ endpoint) (Some data) sent.
Proof.
  intros call. subst call.
  destruct (service_call_run (Post c ctx endpoint (Some b) (Some dst)) prefix tr)
    as (_ & Hevents & _).
  cbn zeta in Hevents. rewrite Hevents.
  destruct (verb_run c ctx MethodPost endpoint (Some b) [] (Some dst) tr)
    as (_ & Hsent & _).
  cbn zeta in Hsent. unfold Post. rewrite Hsent.
  destruct (doRequest_sent c ctx MethodPost endpoint (Some b) [] tr)
    as [Hnone | (url & reqBody & sent0 & Hone & Hurl & (data & Hdata & ->) & Hcarries)].
  - rewrite Hnone. split; [simpl; lia | intros sent []].
  - rewrite Hone. split; [simpl; lia |].
    intros sent [<- | []]. subst url. now exists data.
Qed.

(** What a method built on [Get] sends. *)
Lemma get_call_sent {V : Type} {UV : Unmarshaler V}
    (c : Client Context) (ctx : Context) (endpoint prefix : string)
    (queryParams : list (string * string)) (dst : V) (tr : trace) :
  let call :=
    ('(response, err) <- Get c ctx endpoint (Some dst) queryParams ;;
     if negb (is_nil err) then ret (None, fmt_Errorf_w prefix err)
     else ret (response, error_nil)) in
  (length (sent_requests (events_of call tr)) <= 1)%nat /\
  forall sent, In sent (sent_requests (events_of call tr)) ->
    exists url,
      carries c MethodGet url None sent /\
      (queryParams = [] -> url = baseURL c ++ endpoint) /\
      (queryParams <> [] -> url_with_query (baseURL c ++ endpoint) queryParams = inl url).
Proof.
  intros call. subst call.
  destruct (service_call_run (Get c ctx endpoint (Some dst) queryParams) prefix tr)
    as (_ & Hevents & _).
  cbn zeta in Hevents. rewrite Hevents.
  destruct (verb_run c ctx MethodGet endpoint (@None no_body) queryParams (Some dst) tr)
    as (_ & Hsent & _).
  cbn zeta in Hsent. unfold Get. rewrite Hsent.
  destruct (doRequest_sent c ctx MethodGet endpoint (@None no_body) queryParams tr)
    as [Hnone | (url & reqBody & sent0 & Hone & Hurl & -> & Hcarries)].
  - rewrite Hnone. split; [simpl; lia | intros sent []].
  - rewrite Hone. split; [simpl; lia |].
    intros sent [<- | []]. exists url. split; [exact Hcarries |].
    destruct queryParams; split; congruence.
Qed.

(** X15: each of the four sends issues at most one request, and only for a
    request that passed its validation; the request is a [POST] to the base
    URL followed by the path of the operation, its body is the marshalled
    request, and it carries the client's headers. *)
Theorem send_endpoints (s : MessagesService Context) (ctx : Context)
    (single : SendMessageRequest.t) (bulk : SendBulkMessageRequest.t)
    (template : SendTemplateMessageRequest.t) (voice : SendVoiceMessageRequest.t)
    (tr : trace) (sent : Request.t) :
  let c := client s in
  ((length (sent_requests (events_of (SendSingleMessage s ctx (Some single)) tr)) <= 1)%nat /\
   (In sent (sent_requests (events_of (SendSingleMessage s ctx (Some single)) tr)) ->
    SendMessageRequest.To single <> "" /\ SendMessageRequest.Message single <> "" /\
    exists data, json_Marshal single = inl data /\
      carries c "POST" (baseURL c ++ "/send-message/single") (Some data) sent)) /\
  ((length (sent_requests (events_of (SendBulkMessages s ctx (Some bulk)) tr)) <= 1)%nat /\
   (In sent (sent_requests (events_of (SendBulkMessages s ctx (Some bulk)) tr)) ->
    SendBulkMessageRequest.Messages bulk <> [] /\
    exists data, json_Marshal bulk = inl data /\
      carries c "POST" (baseURL c ++ "/send-message/bulk") (Some data) sent)) /\
  ((length (sent_requests (events_of (SendTemplateMessage s ctx (Some template)) tr)) <= 1)%nat /\
   (In sent (sent_requests (events_of (SendTemplateMessage s ctx (Some template)) tr)) ->
    SendTemplateMessageRequest.To template <> "" /\
    SendTemplateMessageRequest.TemplateID template <> "" /\
    exists data, json_Marshal template = inl data /\
      carries c "POST" (baseURL c ++ "/send-message/template") (Some data) sent)) /\
  ((length (sent_requests (events_of (SendVoiceMessage s ctx (Some voice)) tr)) <= 1)%nat /\
   (In sent (sent_requests (events_of (SendVoiceMessage s ctx (Some voice)) tr)) ->
    SendVoiceMessageRequest.To voice <> "" /\
    (SendVoiceMessageRequest.Message voice <> "" \/
     SendVoiceMessageRequest.AudioURL voice <> "") /\
    exists data, json_Marshal voice = inl data /\
      carries c "POST" (baseURL c ++ "/send-message/voice") (Some data) sent)).
Proof.
  intros c. subst c.
  refine (conj _ (conj _ (conj _ _))).
  - unfold SendSingleMessage.
    destruct (String.eqb_spec (SendMessageRequest.To single) "") as [Hto | Hto];
      [rewrite ret_sends_nothing; split; [simpl; lia | intros []] |].
    destruct (String.eqb_spec (SendMessageRequest.Message single) "") as [Hmsg | Hmsg];
      [rewrite ret_sends_nothing; split; [simpl; lia | intros []] |].
    destruct (post_call_sent (client s) ctx "/send-message/single"
                "failed to send message: " single SendMessageResponse.zero tr)
      as [Hle Hsent].
    split; [exact Hle |]. intros Hin. split; [exact Hto |]. split; [exact Hmsg |].
    exact (Hsent sent Hin).
  - unfold SendBulkMessages.
    destruct (SendBulkMessageRequest.Messages bulk) as [| item rest] eqn:Hitems;
      [cbn; rewrite ret_sends_nothing; split; [simpl; lia | intros []] |].
    cbn [length].
    replace (Z.of_nat (S (length rest)) =? 0) with false
      by (symmetry; apply Z.eqb_neq; lia).
    destruct (post_call_sent (client s) ctx "/send-message/bulk"
                "failed to send bulk messages: " bulk SendBulkMessageResponse.zero tr)
      as [Hle Hsent].
    split; [exact Hle |]. intros Hin. split; [discriminate |].
    exact (Hsent sent Hin).
  - unfold SendTemplateMessage.
    destruct (String.eqb_spec (SendTemplateMessageRequest.To template) "") as [Hto | Hto];
      [rewrite ret_sends_nothing; split; [simpl; lia | intros []] |].
    destruct (String.eqb_spec (SendTemplateMessageRequest.TemplateID template) "")
      as [Hid | Hid];
      [rewrite ret_sends_nothing; split; [simpl; lia | intros []] |].
    destruct (post_call_sent (client s) ctx "/send-message/template"
                "failed to send template message: " template SendMessageResponse.zero tr)
      as [Hle Hsent].
    split; [exact Hle |]. intros Hin. split; [exact Hto |]. split; [exact Hid |].
    exact (Hsent sent Hin).
  - unfold SendVoiceMessage.
    destruct (String.eqb_spec (SendVoiceMessageRequest.To voice) "") as [Hto | Hto];
      [rewrite ret_sends_nothing; split; [simpl; lia | intros []] |].
    destruct (String.eqb_spec (SendVoiceMessageRequest.Message voice) "") as [Hmsg | Hmsg];
      [destruct (String.eqb_spec (SendVoiceMessageRequest.AudioURL voice) "")
         as [Hurl | Hurl] |]; cbn [andb];
      [rewrite ret_sends_nothing; split; [simpl; lia | intros []] | |];
      destruct (post_call_sent (client s) ctx "/send-message/voice"
                  "failed to send voice message: " voice SendMessageResponse.zero tr)
        as [Hle Hsent];
      (split; [exact Hle |]); intros Hin; (split; [exact Hto |]);
      (split; [tauto |]); exact (Hsent sent Hin).
Qed.

(** X16: the status query sends nothing for an empty identifier and
    otherwise at most one [GET] to the base URL followed by
    [/messages/<id>/status], the identifier spliced in as it is; the account
    query sends at most one [GET] to [/user/info].  Neither has a body. *)
Theorem query_endpoints (s : MessagesService Context) (ctx : Context)
    (messageID : string) (tr : trace) (sent : Request.t) :
  let c := client s in
  GetMessageStatus s ctx "" tr = ((None, errorString "message ID is required"), tr) /\
  (length (sent_requests (events_of (GetMessageStatus s ctx messageID) tr)) <= 1)%nat /\
  (In sent (sent_requests (events_of (GetMessageStatus s ctx messageID) tr)) ->
   messageID <> "" /\
   carries c "GET" (baseURL c ++ "/messages/" ++ messageID ++ "/status") None sent) /\
  (length (sent_requests (events_of (GetUserInfo s ctx) tr)) <= 1)%nat /\
  (In sent (sent_requests (events_of (GetUserInfo s ctx) tr)) ->
   carries c "GET" (baseURL c ++ "/user/info") None sent).
Proof.
  intros c. subst c.
  split; [reflexivity |].
  assert (Hstatus :
    (length (sent_requests (events_of (GetMessageStatus s ctx messageID) tr)) <= 1)%nat /\
    (In sent (sent_requests (events_of (GetMessageStatus s ctx messageID) tr)) ->
     messageID <> "" /\
     carries (client s) "GET"
       (baseURL (client s) ++ "/messages/" ++ messageID ++ "/status") None sent)).
  { unfold GetMessageStatus.
    destruct (String.eqb_spec messageID "") as [Hid | Hid];
      [rewrite ret_sends_nothing; split; [simpl; lia | intros []] |].
    destruct (get_call_sent (client s) ctx ("/messages/" ++ messageID ++ "/status")
                "failed to get message status: " [] MessageStatus.zero tr)
      as [Hle Hsent].
    split; [exact Hle |]. intros Hin. split; [exact Hid |].
    destruct (Hsent sent Hin) as (url & Hcarries & Hurl & _).
    now rewrite <- (Hurl eq_refl). }
  destruct Hstatus as [Hle Hsent]. split; [exact Hle |]. split; [exact Hsent |].
  unfold GetUserInfo.
  destruct (get_call_sent (client s) ctx "/user/info" "failed to get user info: " []
              UserInfo.zero tr) as [Hle' Hsent'].
  split; [exact Hle' |]. intros Hin.
  destruct (Hsent' sent Hin) as (url & Hcarries & Hurl & _).
  now rewrite <- (Hurl eq_refl).
Qed.

(** The parameters of the listing: positive ones only. *)
Lemma ListMessages_query_members (params : option PaginationParams.t) (k v : string) :
  In (k, v) (ListMessages_query params) <->
  exists p, params = Some p /\
    ((k = "page" /\ 0 < PaginationParams.Page p /\ v = fmt_d (PaginationParams.Page p)) \/
     (k = "per_page" /\ 0 < PaginationParams.PerPage p /\
      v = fmt_d (PaginationParams.PerPage p))).
Proof.
  unfold ListMessages_query. destruct params as [p |].
  - destruct (Z.gtb_spec (PaginationParams.Page p) 0) as [Hp | Hp];
      destruct (Z.gtb_spec (PaginationParams.PerPage p) 0) as [Hq | Hq];
      cbn [app In]; split.
    all: try (intros Hin; repeat (destruct Hin as [Hin | Hin]); try contradiction;
              inversion Hin; subst; exists p; (split; [reflexivity |]);
              first [left; repeat split; assumption | right; repeat split; assumption]).
    all: intros (p' & Hp' & [(-> & Hpos & ->) | (-> & Hpos & ->)]);
      inversion Hp'; subst p'; first [lia | tauto].
  - cbn [In]. split; [intros [] | intros (p & Hp & _); discriminate].
Qed.

(** X17: the listing sends at most one [GET] to [/messages], without body.
    Its query holds ["page"] exactly when the page is positive and
    ["per_page"] exactly when the page size is positive, each in decimal;
    with no parameters, or none positive, the URL is the base URL followed
    by [/messages] as it is and [net/url] is not involved. *)
Theorem ListMessages_request (s : MessagesService Context) (ctx : Context)
    (params : option PaginationParams.t) (tr : trace) (sent : Request.t) (k v : string) :
  let c := client s in
  let query := ListMessages_query params in
  (In (k, v) query <->
   exists p, params = Some p /\
     ((k = "page" /\ 0 < PaginationParams.Page p /\ v = fmt_d (PaginationParams.Page p)) \/
      (k = "per_page" /\ 0 < PaginationParams.PerPage p /\
       v = fmt_d (PaginationParams.PerPage p)))) /\
  (length (sent_requests (events_of (ListMessages s ctx params) tr)) <= 1)%nat /\
  (In sent (sent_requests (events_of (ListMessages s ctx params) tr)) ->
   exists url,
     carries c "GET" url None sent /\
     (query = [] -> url = baseURL c ++ "/messages") /\
     (query <> [] -> url_with_query (baseURL c ++ "/messages") query = inl url)).
Proof.
  intros c query. subst c query.
  split; [apply ListMessages_query_members |].
  unfold ListMessages. cbn zeta.
  destruct (get_call_sent (client s) ctx "/messages" "failed to list messages: "
              (ListMessages_query params) ListMessagesResponse.zero tr) as [Hle Hsent].
  split; [exact Hle | exact (Hsent sent)].
Qed.

(** X18: a single send answered with a status in [200,300): the body is
    decoded into a zero response.  If the decoder accepts it, that response
    is returned; if not, no response is returned, whatever the decoder had
    stored, and the error unwraps twice to the decoder's. *)
Theorem SendSingleMessage_answered (s : MessagesService Context) (ctx : Context)
    (req : SendMessageRequest.t) (resp : Response.t) (data : string) (tr tr' : trace) :
  SendMessageRequest.To req <> "" ->
  SendMessageRequest.Message req <> "" ->
  doRequest (client s) ctx MethodPost "/send-message/single" (Some req) [] tr
    = (inl resp, tr') ->
  Response.Body resp = (data, error_nil) ->
  200 <= Response.StatusCode resp < 300 ->
  let decoded := fst (json_Unmarshal data SendMessageResponse.zero) in
  let cause := snd (json_Unmarshal data SendMessageResponse.zero) in
  let run := SendSingleMessage s ctx (Some req) tr in
  snd run = (tr' ++ [EvUnmarshal data])%list /\
  (cause = error_nil -> fst run = (Some decoded, error_nil)) /\
  (cause <> error_nil ->
   fst (fst run) = None /\
   Error (snd (fst run))
     = Return ("failed to send message: failed to unmarshal response: "
               ++ fmt_w_operand cause) /\
   errors_Unwrap (errors_Unwrap (snd (fst run))) = cause).
Proof.
  intros Hto Hmsg Hreq Hbody Hstatus decoded cause run.
  subst decoded cause run.
  unfold SendSingleMessage.
  apply String.eqb_neq in Hto, Hmsg. rewrite Hto, Hmsg.
  unfold Post, bind. rewrite Hreq.
  unfold parseResponse, io_ReadAll. rewrite Hbody. cbn [is_nil negb].
  rewrite (status_inside _ Hstatus).
  unfold unmarshal, bind, emit, ret.
  destruct (json_Unmarshal data SendMessageResponse.zero) as [decoded cause].
  cbn [fst snd].
  destruct (is_nil cause) eqn:Hnil; cbn [negb is_nil fst snd].
  - apply is_nil_true in Hnil. subst cause.
    split; [reflexivity |]. split; [reflexivity | congruence].
  - apply is_nil_false in Hnil.
    split; [reflexivity |]. split; [congruence |].
    intros _. split; [reflexivity |]. split; [| reflexivity].
    reflexivity.
Qed.

End ServiceFurther.

(** ** Construction *)

Section ConstructionFurther.

Import Construction.

Variable Settings : Type.
Variable zero_settings : Settings.

Local Notation "'apply_options'" := (fold_left (fun st opt => apply_option Settings opt st)).

Lemma last_cons_default {A : Type} (l : list A) (u d : A) :
  last (u :: l) d = last l u.
Proof.
  revert u d. induction l as [| x l IH]; intros u d; [reflexivity |].
  change (last (u :: x :: l) d) with (last (x :: l) d).
  now rewrite !IH.
Qed.

Lemma set_Timeout_length (p : nat) (t : Z) (h : store Settings) :
  length (set_Timeout Settings p t h) = length h.
Proof.
  revert p. induction h as [| hc h IH]; intros [| p]; simpl; auto.
Qed.

Lemma set_Timeout_other (p q : nat) (t : Z) (h : store Settings) :
  p <> q -> nth_error (set_Timeout Settings p t h) q = nth_error h q.
Proof.
  revert p q. induction h as [| hc h IH]; intros [| p] [| q] Hpq; simpl; auto.
  congruence.
Qed.

Lemma set_Timeout_same (p : nat) (t : Z) (h : store Settings) (hc : http_Client Settings) :
  nth_error h p = Some hc ->
  nth_error (set_Timeout Settings p t h) p
    = Some (mk_http_Client Settings t (settings Settings hc)).
Proof.
  revert p. induction h as [| hc0 h IH]; intros [| p] Hp; simpl in *;
    try discriminate; auto.
  now inversion Hp.
Qed.

Lemma set_Timeout_settings (p q : nat) (t : Z) (h : store Settings)
    (hc : http_Client Settings) :
  nth_error h q = Some hc ->
  exists hc', nth_error (set_Timeout Settings p t h) q = Some hc' /\
              settings Settings hc' = settings Settings hc.
Proof.
  intros Hq. destruct (Nat.eq_dec p q) as [-> | Hpq].
  - rewrite (set_Timeout_same q t h hc Hq). eexists. split; reflexivity.
  - rewrite (set_Timeout_other p q t h Hpq). now exists hc.
Qed.

(** What a run of options keeps: the credentials, the size of the store,
    the settings of every [http.Client], and every [http.Client] other than
    the one the client started with and those handed over. *)
Lemma apply_options_invariant (opts : list ClientOption) (c : Client)
    (h : store Settings) (allowed : list nat) :
  (forall p, httpClient c = Some p -> In p allowed) ->
  let st := apply_options opts (c, h) in
  apiKey (fst st) = apiKey c /\
  apiSecret (fst st) = apiSecret c /\
  baseURL (fst st) = last (given_base_URLs opts) (baseURL c) /\
  length (snd st) = length h /\
  (forall p, httpClient (fst st) = Some p -> In p (allowed ++ handed opts)) /\
  (forall p, ~ In p (allowed ++ handed opts) -> nth_error (snd st) p = nth_error h p) /\
  (forall p hc, nth_error h p = Some hc ->
     exists hc', nth_error (snd st) p = Some hc' /\
                 settings Settings hc' = settings Settings hc).
Proof.
  revert c h allowed.
  induction opts as [| opt opts IH]; intros c h allowed Hheld; cbn zeta.
  - cbn [fold_left fst snd given_base_URLs last handed]. rewrite app_nil_r.
    repeat split; auto. intros p hc Hp. now exists hc.
  - cbn [fold_left].
    destruct opt as [u | q | t]; cbn [apply_option].
    + specialize (IH (mkClient u (httpClient c) (apiKey c) (apiSecret c)) h allowed Hheld).
      cbn zeta in IH. cbn [apiKey apiSecret baseURL httpClient] in IH.
      destruct IH as (Hk & Hs & Hb & Hl & Hp & Hn & Hset).
      cbn [given_base_URLs handed].
      repeat split; auto.
      rewrite Hb. symmetry. apply last_cons_default.
    + specialize (IH (mkClient (baseURL c) q (apiKey c) (apiSecret c)) h
                     (allowed ++ match q with Some p => [p] | None => [] end)%list).
      cbn zeta in IH. cbn [apiKey apiSecret baseURL httpClient] in IH.
      destruct IH as (Hk & Hs & Hb & Hl & Hp & Hn & Hset).
      { intros p ->. apply in_or_app. right. now left. }
      assert (Heq : forall p,
                In p ((allowed ++ match q with Some p => [p] | None => [] end)
                        ++ handed opts)%list
                <-> In p (allowed ++ handed (WithHTTPClient q :: opts))%list).
      { intros p. destruct q as [q |]; cbn [handed]; rewrite !in_app_iff; simpl; tauto. }
      cbn [given_base_URLs].
      repeat split; auto.
      * intros p Hheld'. apply Heq. auto.
      * intros p Hout. apply Hn. intros Hin. apply Hout, Heq, Hin.
    + cbn [given_base_URLs handed].
      destruct (httpClient c) as [q |] eqn:Hq.
      * specialize (IH c (set_Timeout Settings q t h) allowed).
        cbn zeta in IH.
        destruct IH as (Hk & Hs & Hb & Hl & Hp & Hn & Hset).
        { intros p Hp. apply Hheld. congruence. }
        rewrite set_Timeout_length in Hl.
        repeat split; auto.
        -- intros p Hout. rewrite (Hn p Hout). apply set_Timeout_other.
           intros ->. apply Hout, in_or_app. left. now apply Hheld.
        -- intros p hc Hp'.
           destruct (set_Timeout_settings q p t h hc Hp') as (hc1 & H1 & Hs1).
           destruct (Hset p hc1 H1) as (hc2 & H2 & Hs2).
           exists hc2. split; [exact H2 | congruence].
      * apply (IH c h allowed). intros p Hp. congruence.
Qed.

Lemma set_Timeout_read (p : nat) (t : Z) (h : store Settings) (hc : http_Client Settings) :
  nth_error (set_Timeout Settings p t h) p = Some hc -> Timeout Settings hc = t.
Proof.
  revert p. induction h as [| hc0 h IH]; intros [| p] Hp; simpl in *;
    try discriminate; eauto.
  now inversion Hp.
Qed.

Lemma NewClient_app (k sec : string) (opts more : list ClientOption) (h : store Settings) :
  NewClient Settings zero_settings k sec (opts ++ more) h
  = apply_options more (NewClient Settings zero_settings k sec opts h).
Proof. unfold NewClient. apply fold_left_app. Qed.

Lemma NewClient_settings (k sec : string) (opts : list ClientOption) (h : store Settings)
    (p : nat) (hc : http_Client Settings) :
  nth_error h p = Some hc ->
  exists hc',
    nth_error (snd (NewClient Settings zero_settings k sec opts h)) p = Some hc' /\
    settings Settings hc' = settings Settings hc.
Proof.
  intros Hp. unfold NewClient. cbn zeta.
  destruct (apply_options_invariant opts
              (mkClient DefaultBaseURL (Some (length h)) k sec)
              (h ++ [mk_http_Client Settings DefaultTimeout zero_settings])%list
              [length h])
    as (_ & _ & _ & _ & _ & _ & Hset).
  { intros q Hq. inversion Hq. now left. }
  apply Hset. rewrite nth_error_app1; [exact Hp |].
  apply nth_error_Some. congruence.
Qed.

(** X19: whatever the options, the client holds the credentials it was
    constructed with, and its base URL is that of the last [WithBaseURL],
    the default when there is none.  One [http.Client] is allocated; of those
    that existed, the options change nothing but [Timeout], and nothing at
    all unless the [http.Client] was handed over by [WithHTTPClient]. *)
Theorem NewClient_keeps (k sec : string) (opts : list ClientOption) (h : store Settings) :
  let st := NewClient Settings zero_settings k sec opts h in
  apiKey (fst st) = k /\
  apiSecret (fst st) = sec /\
  baseURL (fst st) = last (given_base_URLs opts) DefaultBaseURL /\
  length (snd st) = S (length h) /\
  (forall p hc, nth_error h p = Some hc ->
     exists hc', nth_error (snd st) p = Some hc' /\
                 settings Settings hc' = settings Settings hc /\
                 (~ In p (handed opts) -> hc' = hc)).
Proof.
  unfold NewClient. cbn zeta.
  destruct (apply_options_invariant opts
              (mkClient DefaultBaseURL (Some (length h)) k sec)
              (h ++ [mk_http_Client Settings DefaultTimeout zero_settings])%list
              [length h])
    as (Hk & Hs & Hb & Hl & _ & Hn & Hset).
  { intros p Hp. inversion Hp. now left. }
  cbn [apiKey apiSecret baseURL] in Hk, Hs, Hb.
  split; [exact Hk |]. split; [exact Hs |]. split; [exact Hb |].
  split; [etransitivity; [exact Hl | rewrite length_app; simpl; lia] |].
  intros p hc Hp.
  assert (Hlt : (p < length h)%nat) by (apply nth_error_Some; congruence).
  assert (Hp' : nth_error (h ++ [mk_http_Client Settings DefaultTimeout zero_settings]) p
                = Some hc) by (rewrite nth_error_app1; assumption).
  destruct (Hset p hc Hp') as (hc' & Hhc' & Hsettings).
  exists hc'. split; [exact Hhc' |]. split; [exact Hsettings |].
  intros Hout.
  assert (Hfree : ~ In p ([length h] ++ handed opts)).
  { intros [Hin | Hin]%in_app_or; [| exact (Hout Hin)].
    destruct Hin as [Hin | []]. lia. }
  rewrite (Hn p Hfree) in Hhc'. congruence.
Qed.

(** X20: without options the client holds a fresh [http.Client] with the
    default timeout of thirty seconds; and when [WithTimeout] is the last
    option, the [http.Client] the client holds, if any, has that timeout. *)
Theorem NewClient_timeout (k sec : string) (opts : list ClientOption) (t : Z)
    (h : store Settings) (hc : http_Client Settings) :
  held Settings (NewClient Settings zero_settings k sec [] h)
    = Some (mk_http_Client Settings 30000000000 zero_settings) /\
  (held Settings (NewClient Settings zero_settings k sec (opts ++ [WithTimeout t]) h)
     = Some hc ->
   Timeout Settings hc = t).
Proof.
  split.
  - unfold held, NewClient. cbn [fold_left fst snd httpClient].
    rewrite nth_error_app2, Nat.sub_diag; [reflexivity | lia].
  - rewrite NewClient_app. cbn [fold_left].
    destruct (NewClient Settings zero_settings k sec opts h) as [c h1].
    unfold held. cbn [apply_option].
    destruct (httpClient c) as [p |] eqn:Hp; cbn [fst snd]; rewrite Hp.
    + apply set_Timeout_read.
    + discriminate.
Qed.

(** X21: [WithHTTPClient] followed by [WithTimeout] writes the timeout into
    the [http.Client] of the caller: the client holds the pointer handed
    over, and what it points to has the new timeout and its other settings
    as they were. *)
Theorem WithTimeout_writes_through (k sec : string) (opts : list ClientOption)
    (p : nat) (t : Z) (h : store Settings) (hc : http_Client Settings) :
  nth_error h p = Some hc ->
  let st := NewClient Settings zero_settings k sec
              (opts ++ [WithHTTPClient (Some p); WithTimeout t]) h in
  httpClient (fst st) = Some p /\
  nth_error (snd st) p = Some (mk_http_Client Settings t (settings Settings hc)).
Proof.
  intros Hp. cbn zeta. rewrite NewClient_app.
  destruct (NewClient_settings k sec opts h p hc Hp) as (hc' & Hhc' & Hsettings).
  destruct (NewClient Settings zero_settings k sec opts h) as [c h1].
  cbn [fst snd] in Hhc'. cbn [fold_left apply_option httpClient fst snd].
  split; [reflexivity |].
  rewrite (set_Timeout_same p t h1 hc' Hhc'). now rewrite Hsettings.
Qed.

(** X22: a timeout given before [WithHTTPClient] is not carried over: when
    the last option hands over an [http.Client] that no earlier option
    handed over, the client holds it exactly as the caller made it. *)
Theorem WithHTTPClient_last (k sec : string) (opts : list ClientOption)
    (p : nat) (h : store Settings) (hc : http_Client Settings) :
  nth_error h p = Some hc ->
  ~ In p (handed opts) ->
  held Settings (NewClient Settings zero_settings k sec (opts ++ [WithHTTPClient (Some p)]) h)
    = Some hc.
Proof.
  intros Hp Hout. rewrite NewClient_app. unfold NewClient. cbn zeta.
  destruct (apply_options_invariant opts
              (mkClient DefaultBaseURL (Some (length h)) k sec)
              (h ++ [mk_http_Client Settings DefaultTimeout zero_settings])%list
              [length h])
    as (_ & _ & _ & _ & _ & Hn & _).
  { intros q Hq. inversion Hq. now left. }
  assert (Hlt : (p < length h)%nat) by (apply nth_error_Some; congruence).
  assert (Hfree : ~ In p ([length h] ++ handed opts)).
  { intros [Hin | Hin]%in_app_or; [| exact (Hout Hin)].
    destruct Hin as [Hin | []]. lia. }
  specialize (Hn p Hfree). rewrite nth_error_app1 in Hn by exact Hlt.
  rewrite Hp in Hn.
  destruct (fold_left _ opts _) as [c h1].
  cbn [fold_left apply_option held fst snd httpClient]. exact Hn.
Qed.

Lemma NewClient_fields (k sec : string) (opts : list ClientOption) (h : store Settings) :
  apiKey (fst (NewClient Settings zero_settings k sec opts h)) = k /\
  apiSecret (fst (NewClient Settings zero_settings k sec opts h)) = sec /\
  baseURL (fst (NewClient Settings zero_settings k sec opts h))
    = last (given_base_URLs opts) DefaultBaseURL.
Proof.
  unfold NewClient. cbn zeta.
  destruct (apply_options_invariant opts
              (mkClient DefaultBaseURL (Some (length h)) k sec)
              (h ++ [mk_http_Client Settings DefaultTimeout zero_settings])%list
              [length h])
    as (Hk & Hs & Hb & _).
  { intros q Hq. inversion Hq. now left. }
  split; [exact Hk |]. split; [exact Hs | exact Hb].
Qed.

End ConstructionFurther.

Section ConstructedClient.

Context {Settings Context B : Type} {net : NetLib Context} {MB : Marshaler B}.

(** X23: the client as the pipeline sees it: every request it sends
    carries the credentials given to [NewClient], and, without query
    parameters, goes to the base URL of the last [WithBaseURL] (the default
    without one) followed by the endpoint. *)
Theorem constructed_client_requests (zero_settings : Settings)
    (Do : Construction.http_Client Settings -> Context -> Request.t -> Response.t + error)
    (k sec : string) (opts : list Construction.ClientOption)
    (h : Construction.store Settings)
    (c : Client Context) (ctx : Context) (method endpoint : string)
    (body : option B) (tr : trace) (sent : Request.t) :
  pipeline_client Do (Construction.NewClient Settings zero_settings k sec opts h) = Some c ->
  In sent (sent_requests (events_of (doRequest c ctx method endpoint body []) tr)) ->
  Header_Get "X-API-Key" sent = k /\
  Header_Get "X-API-Secret" sent = sec /\
  Request.URL sent = last (given_base_URLs opts) DefaultBaseURL ++ endpoint.
Proof.
  intros Hclient Hsent.
  destruct (NewClient_fields Settings zero_settings k sec opts h) as (Hk & Hs & Hb).
  unfold pipeline_client in Hclient.
  destruct (Construction.held Settings _) as [hc |]; [| discriminate].
  inversion Hclient as [Hc]. clear Hclient.
  rewrite Hk, Hs, Hb in Hc.
  destruct (doRequest_sent c ctx method endpoint body [] tr)
    as [Hnone | (url & reqBody & sent0 & Hone & Hurl & _ & Hcarries)].
  - rewrite Hnone in Hsent. destruct Hsent.
  - rewrite Hone in Hsent. destruct Hsent as [<- | []].
    destruct Hcarries as (_ & Hu & _ & _ & _ & Hkey & Hsecret).
    rewrite Hkey, Hsecret, Hu, Hurl, <- Hc. repeat split; reflexivity.
Qed.

End ConstructedClient.

(** ** Concrete runs of the further properties *)

Import MockMore.

(** A 200 whose body cannot be read. *)
Lemma parseResponse_read_failure_witness :
  parseResponse (server 200 "") (Response.mk 200 ("", errorString "unexpected EOF"))
    (Some SendMessageResponse.zero) []
  = ((Some SendMessageResponse.zero,
      wrapError "failed to read response body: unexpected EOF"
        (errorString "unexpected EOF")), []).
Proof.
  apply (parseResponse_read_failure (server 200 "")
           (Response.mk 200 ("", errorString "unexpected EOF")) ""
           (errorString "unexpected EOF") (Some SendMessageResponse.zero) []);
    [reflexivity | discriminate].
Defined.

(** A 404 with an empty object for a body: nothing in it, so the error is
    synthesized, message included. *)
Lemma parseResponse_typed_error_filled_witness :
  exists e,
    snd (fst (parseResponse (Mock.server 404 "{}") (Response.mk 404 ("{}", error_nil))
                (@None SendMessageResponse.t) []))
      = APIErrorPtr (Some e) /\
    (Message e <> "" \/ Code e <> "" \/ ErrorMsg e <> "") /\
    (404 <> 0 -> StatusCode e <> 0).
Proof.
  apply (parseResponse_typed_error_filled (UE := Codec.APIError_Unmarshaler)
           (UV := Codec.SendMessageResponse_Unmarshaler)
           (Mock.server 404 "{}") (Response.mk 404 ("{}", error_nil)) "{}" None []
           eq_refl).
  right. simpl. lia.
Defined.

(** A 429 answered with a page that is no JSON. *)
Lemma synthesized_error_category_witness :
  returns_iff
    (IsRateLimited
       (snd (fst (parseResponse (Mock.server 429 "<html>slow down</html>")
                    (Response.mk 429 ("<html>slow down</html>", error_nil))
                    (@None SendMessageResponse.t) []))))
    (429 = 429).
Proof.
  destruct (synthesized_error_category (UE := Codec.APIError_Unmarshaler)
              (UV := Codec.SendMessageResponse_Unmarshaler)
              (Mock.server 429 "<html>slow down</html>")
              (Response.mk 429 ("<html>slow down</html>", error_nil))
              "<html>slow down</html>" None [] eq_refl)
    as (_ & _ & _ & Hrl & _).
  - right. simpl. lia.
  - left. discriminate.
  - exact Hrl.
Defined.

(** The request of a single send, as the mock server receives it. *)
Lemma doRequest_request_witness :
  let sent :=
    first_sent (events_of (doRequest (server 200 sent_body) tt MethodPost
                             "/send-message/single" (Some single_request) []) []) in
  Request.Method sent = "POST" /\
  Request.URL sent = "http://127.0.0.1/send-message/single" /\
  Header_Get "X-API-Key" sent = "test-key" /\
  Header_Get "X-API-Secret" sent = "test-secret" /\
  length (Request.Header sent) = 4%nat.
Proof.
  cbn zeta.
  assert (Hin : In (EvDo (first_sent (events_of (doRequest (server 200 sent_body) tt
                      MethodPost "/send-message/single" (Some single_request) []) [])))
                  (events_of (doRequest (server 200 sent_body) tt MethodPost
                                "/send-message/single" (Some single_request) []) []))
    by (right; left; reflexivity).
  destruct (doRequest_request (server 200 sent_body) tt MethodPost "/send-message/single"
              (Some single_request) [] [] _ Hin)
    as (Hm & Hurl & _ & _ & _ & _ & _ & Hkey & Hsecret & Hlen).
  split; [exact Hm |]. split; [exact (Hurl eq_refl) |].
  split; [exact Hkey |]. split; [exact Hsecret | exact Hlen].
Defined.

(** A server that cannot be reached, asked for the account. *)
Lemma verbs_without_response_witness :
  fst (Get unreachable tt "/user/info" (Some UserInfo.zero) [] [])
  = (Some UserInfo.zero,
     wrapError "request failed: connection refused" (errorString "connection refused")).
Proof.
  destruct (verbs_without_response unreachable tt "/user/info" (@None no_body) []
              (Some UserInfo.zero)
              (wrapError "request failed: connection refused"
                 (errorString "connection refused"))
              []
              (snd (doRequest unreachable tt MethodGet "/user/info" (@None no_body) [] [])))
    as (Hget & _).
  destruct (Hget eq_refl) as [Hrun _]. now rewrite Hrun.
Defined.

(** A recipient without a message text. *)
Lemma SendSingleMessage_validation_witness :
  SendSingleMessage (service (server 200 sent_body)) tt
    (Some (SendMessageRequest.mk "+989123456789" "" "" "" "" None)) []
  = ((None, errorString "message text is required"), []).
Proof.
  destruct (SendSingleMessage_validation (service (server 200 sent_body)) tt
              (SendMessageRequest.mk "+989123456789" "" "" "" "" None) [])
    as (_ & Hmsg & _).
  apply Hmsg; [discriminate | reflexivity].
Defined.

(** A template send without template. *)
Lemma SendTemplateMessage_validation_witness :
  SendTemplate (service (server 200 sent_body)) tt "+989123456789" "" None []
  = ((None, errorString "template ID is required"), []).
Proof.
  destruct (SendTemplateMessage_validation (service (server 200 sent_body)) tt
              (SendTemplateMessageRequest.mk "+989123456789" "" None "" None) [])
    as (_ & _ & Hid).
  apply Hid; [discriminate | reflexivity].
Defined.

(** [SendVoice] without text. *)
Lemma SendVoiceMessage_validation_witness :
  SendVoice (service (server 200 sent_body)) tt "+989123456789" "" "female" "fa" []
  = ((None, errorString "either message text or audio URL is required"), []).
Proof.
  destruct (SendVoiceMessage_validation (service (server 200 sent_body)) tt
              (SendVoiceMessageRequest.mk "" "" "" "" "" "" None)
              "+989123456789" "female" "fa" [])
    as (_ & _ & _ & Hvoice).
  apply Hvoice. discriminate.
Defined.

(** A voice send with an audio URL and no text is sent. *)
Lemma send_endpoints_witness :
  let voice := SendVoiceMessageRequest.mk "+989123456789" "" "http://127.0.0.1/a.mp3"
                 "" "" "" None in
  let sent :=
    first_sent (events_of (SendVoiceMessage (service (server 200 sent_body)) tt (Some voice))
                  []) in
  exists data,
    json_Marshal voice = inl data /\
    carries (server 200 sent_body) "POST" "http://127.0.0.1/send-message/voice"
      (Some data) sent.
Proof.
  cbn zeta.
  destruct (send_endpoints (service (server 200 sent_body)) tt single_request
              (SendBulkMessageRequest.mk [] "" None)
              (SendTemplateMessageRequest.mk "" "" None "" None)
              (SendVoiceMessageRequest.mk "+989123456789" "" "http://127.0.0.1/a.mp3"
                 "" "" "" None)
              []
              (first_sent (events_of (SendVoiceMessage (service (server 200 sent_body)) tt
                 (Some (SendVoiceMessageRequest.mk "+989123456789" ""
                          "http://127.0.0.1/a.mp3" "" "" "" None))) [])))
    as (_ & _ & _ & _ & Hvoice).
  destruct (Hvoice ltac:(vm_compute; left; reflexivity)) as (_ & _ & Hsent).
  exact Hsent.
Defined.

(** The status of a message whose identifier holds a slash. *)
Lemma query_endpoints_witness :
  Request.URL
    (first_sent (events_of (GetMessageStatus (service (server 200 "{}")) tt "a/b") []))
  = "http://127.0.0.1/messages/a/b/status".
Proof.
  destruct (query_endpoints (service (server 200 "{}")) tt "a/b" []
              (first_sent (events_of (GetMessageStatus (service (server 200 "{}")) tt "a/b")
                             [])))
    as (_ & _ & Hstatus & _).
  destruct (Hstatus ltac:(vm_compute; left; reflexivity)) as (_ & _ & Hurl & _).
  exact Hurl.
Defined.

(** Page 2 with no page size: one parameter. *)
Lemma ListMessages_request_witness :
  In ("page", "2") (ListMessages_query (Some (PaginationParams.mk 2 0))) /\
  Request.URL
    (first_sent (events_of (ListMessages (service (server 200 "{}")) tt
                              (Some (PaginationParams.mk 2 0))) []))
  = "http://127.0.0.1/messages?page=2".
Proof.
  destruct (ListMessages_request (service (server 200 "{}")) tt
              (Some (PaginationParams.mk 2 0)) []
              (first_sent (events_of (ListMessages (service (server 200 "{}")) tt
                                        (Some (PaginationParams.mk 2 0))) []))
              "page" "2")
    as (Hquery & _ & Hsent).
  split.
  - apply Hquery. exists (PaginationParams.mk 2 0). split; [reflexivity |].
    left. repeat split.
  - destruct (Hsent ltac:(vm_compute; left; reflexivity)) as (url & (_ & Hurl & _) & _ & Hq).
    rewrite Hurl.
    assert (Hq' := Hq ltac:(discriminate)). vm_compute in Hq'. now inversion Hq'.
Defined.

(** A 200 whose body is no JSON: no response, and the decoder's error two
    wrappings down. *)
Lemma SendSingleMessage_answered_witness :
  let run := SendSingleMessage (service (server 200 "<html>")) tt (Some single_request) [] in
  fst (fst run) = None /\
  Error (snd (fst run))
    = Return "failed to send message: failed to unmarshal response: invalid JSON text" /\
  errors_Unwrap (errors_Unwrap (snd (fst run))) = errorString "invalid JSON text".
Proof.
  cbn zeta.
  destruct (SendSingleMessage_answered (service (server 200 "<html>")) tt single_request
              (Response.mk 200 ("<html>", error_nil)) "<html>" []
              (snd (doRequest (server 200 "<html>") tt MethodPost "/send-message/single"
                      (Some single_request) [] [])))
    as (_ & _ & Hfail);
    [discriminate | discriminate | reflexivity | reflexivity | simpl; lia |].
  apply Hfail. discriminate.
Defined.

(** A client built beside it, with its own timeout and base URL, leaves it
    alone. *)
Lemma NewClient_keeps_witness :
  exists hc',
    nth_error (snd (Construction.NewClient nat 0%nat "key" "secret"
                      [Construction.WithTimeout 5;
                       Construction.WithBaseURL "http://127.0.0.1"]
                      callers_store)) 0
      = Some hc' /\
    hc' = Construction.mk_http_Client nat 7 1%nat.
Proof.
  destruct (NewClient_keeps nat 0%nat "key" "secret"
              [Construction.WithTimeout 5; Construction.WithBaseURL "http://127.0.0.1"]
              callers_store)
    as (_ & _ & _ & _ & Hstore).
  destruct (Hstore 0%nat (Construction.mk_http_Client nat 7 1%nat) eq_refl)
    as (hc' & Hhc' & _ & Hsame).
  exists hc'. split; [exact Hhc' |]. apply Hsame. simpl. tauto.
Defined.

(** A base URL, then a timeout of five seconds. *)
Lemma NewClient_timeout_witness :
  exists hc,
    Construction.held nat
      (Construction.NewClient nat 0%nat "key" "secret"
         [Construction.WithBaseURL "http://127.0.0.1";
          Construction.WithTimeout (5 * Construction.Second)] [])
      = Some hc /\
    Construction.Timeout nat hc = 5 * Construction.Second.
Proof.
  destruct (NewClient_timeout nat 0%nat "key" "secret"
              [Construction.WithBaseURL "http://127.0.0.1"] (5 * Construction.Second) []
              (Construction.mk_http_Client nat (5 * Construction.Second) 0%nat))
    as (_ & Hlast).
  eexists. split; [reflexivity |]. apply Hlast. reflexivity.
Defined.

(** The caller's [http.Client] handed over, then a timeout of 5: the
    caller's [http.Client] now has it. *)
Lemma WithTimeout_writes_through_witness :
  nth_error (snd (Construction.NewClient nat 0%nat "key" "secret"
                    [Construction.WithHTTPClient (Some 0%nat); Construction.WithTimeout 5]
                    callers_store)) 0
  = Some (Construction.mk_http_Client nat 5 1%nat).
Proof.
  apply (WithTimeout_writes_through nat 0%nat "key" "secret" [] 0%nat 5 callers_store
           (Construction.mk_http_Client nat 7 1%nat) eq_refl).
Defined.

(** In the other order the timeout of 5 is lost: the client works with the
    caller's 7. *)
Lemma WithHTTPClient_last_witness :
  Construction.held nat
    (Construction.NewClient nat 0%nat "key" "secret"
       [Construction.WithTimeout 5; Construction.WithHTTPClient (Some 0%nat)]
       callers_store)
  = Some (Construction.mk_http_Client nat 7 1%nat).
Proof.
  apply (WithHTTPClient_last nat 0%nat "key" "secret" [Construction.WithTimeout 5] 0%nat
           callers_store (Construction.mk_http_Client nat 7 1%nat) eq_refl).
  simpl. tauto.
Defined.

(** A client constructed for the mock server, and the request of its
    account query. *)
Lemma constructed_client_requests_witness :
  let built :=
    Construction.NewClient nat 0%nat "key" "secret"
      [Construction.WithBaseURL "http://127.0.0.1"] [] in
  let Do := fun (_ : Construction.http_Client nat) (_ : Mock.Context) (_ : Request.t) =>
              @inl Response.t error (Response.mk 200 ("{}", error_nil)) in
  exists c,
    pipeline_client Do built = Some c /\
    let sent := first_sent (events_of (doRequest c tt MethodGet "/user/info"
                                         (@None no_body) []) []) in
    Header_Get "X-API-Key" sent = "key" /\
    Header_Get "X-API-Secret" sent = "secret" /\
    Request.URL sent = "http://127.0.0.1/user/info".
Proof.
  cbn zeta. eexists. split; [reflexivity |].
  eapply (constructed_client_requests 0%nat
            (fun _ _ _ => inl (Response.mk 200 ("{}", error_nil)))
            "key" "secret" [Construction.WithBaseURL "http://127.0.0.1"] [] _ tt
            MethodGet "/user/info" (@None no_body) []);
    [reflexivity | vm_compute; left; reflexivity].
Defined.
